(** * Time Manipulation: the schedule timing engine

    A shallow embedding of [src/TimeManipulation.jsx].  The file holds two
    versions of the application, one after the other:

    - the first variant (module [V1], source lines 1-678) keeps one Firestore
      document per schedule, works on whole minutes, and tries to delete a
      schedule when it is finished;
    - the second variant (module [V2], source lines 680-1515) keeps one
      document holding the task array, works on [Date] instants, and archives
      a finished task by writing its [status].

    Conventions of the embedding.

    - A JavaScript number that the code computes from a time string is an
      [option Z]: [None] is [NaN].  Arithmetic propagates [NaN] and every
      comparison with [NaN] is false, as in the language.
    - A [Date] is the number of milliseconds since local midnight of the
      current calendar day; an invalid date is [NaN].  Every instant lives on
      the same calendar day and the day has no clock change.
    - React state, the Firestore collections as last delivered by
      [onSnapshot], and [localStorage] are fields of an explicit state record
      that every handler threads.
    - What the environment decides (the clock read by [new Date()], the value
      of [Math.random()], whether a Firestore write resolves or rejects) is an
      argument of the handler that asks for it. *)

From Stdlib Require Import ZArith Lia Bool List String Ascii Sorted.
From Stdlib Require OrderedTypeEx.
From stdpp Require Import base strings gmap list.
Import ListNotations.

Local Open Scope string_scope.
Local Open Scope Z_scope.

(** ** JavaScript numbers, strings and dates *)

Module JS.

Definition num := option Z.

Definition NaN : num := None.

Definition add (a b : num) : num :=
  match a, b with Some x, Some y => Some (x + y) | _, _ => None end.

Definition sub (a b : num) : num :=
  match a, b with Some x, Some y => Some (x - y) | _, _ => None end.

Definition mul (a b : num) : num :=
  match a, b with Some x, Some y => Some (x * y) | _, _ => None end.

Definition ge (a b : num) : bool :=
  match a, b with Some x, Some y => x >=? y | _, _ => false end.

Definition gt (a b : num) : bool :=
  match a, b with Some x, Some y => x >? y | _, _ => false end.

Definition le (a b : num) : bool :=
  match a, b with Some x, Some y => x <=? y | _, _ => false end.

Definition lt (a b : num) : bool :=
  match a, b with Some x, Some y => x <? y | _, _ => false end.

(** [a === b] on numbers. *)
Definition seq (a b : num) : bool :=
  match a, b with Some x, Some y => x =? y | _, _ => false end.

(** [s.split(sep)] for a one-character separator. *)
Fixpoint split (sep : ascii) (s : string) : list string :=
  match s with
  | EmptyString => [EmptyString]
  | String c rest =>
      if Ascii.eqb c sep then EmptyString :: split sep rest
      else match split sep rest with
           | h :: t => String c h :: t
           | [] => [String c EmptyString]
           end
  end.

Definition code (c : ascii) : Z := Z.of_nat (nat_of_ascii c).

(** White space that [parseInt] and [Number] skip; of the language's white
    space only the ASCII characters are covered. *)
Definition is_ws (c : ascii) : bool :=
  let n := code c in ((9 <=? n) && (n <=? 13)) || (n =? 32).

Fixpoint skip_ws (s : string) : string :=
  match s with
  | String c rest => if is_ws c then skip_ws rest else s
  | EmptyString => s
  end.

Definition dec_digit (c : ascii) : option Z :=
  let n := code c in
  if (48 <=? n) && (n <=? 57) then Some (n - 48) else None.

Definition hex_digit (c : ascii) : option Z :=
  let n := code c in
  if (48 <=? n) && (n <=? 57) then Some (n - 48)
  else if (65 <=? n) && (n <=? 70) then Some (n - 55)
  else if (97 <=? n) && (n <=? 102) then Some (n - 87)
  else None.

(** The longest prefix of digits in the radix, read as a number; [acc] is
    [None] as long as no digit was read. *)
Fixpoint digits_prefix (radix : Z) (digit : ascii -> option Z)
    (s : string) (acc : option Z) : option Z :=
  match s with
  | String c rest =>
      match digit c with
      | Some d =>
          digits_prefix radix digit rest
            (Some (radix * (match acc with Some a => a | None => 0 end) + d))
      | None => acc
      end
  | EmptyString => acc
  end.

Definition strip_sign (s : string) : Z * string :=
  match s with
  | String "-"%char rest => (-1, rest)
  | String "+"%char rest => (1, rest)
  | _ => (1, s)
  end.

(** [parseInt(s)] with no radix argument: leading white space, an optional
    sign, an optional [0x] prefix, then the longest prefix of digits; [NaN]
    when there is no digit. *)
Definition parseInt (s : string) : num :=
  let '(sign, s2) := strip_sign (skip_ws s) in
  let v :=
    match s2 with
    | String "0"%char (String x rest) =>
        if (Ascii.eqb x "x" || Ascii.eqb x "X")%bool
        then digits_prefix 16 hex_digit rest None
        else digits_prefix 10 dec_digit s2 None
    | _ => digits_prefix 10 dec_digit s2 None
    end in
  match v with Some n => Some (sign * n) | None => None end.

(** [parseInt(parts[i])]; a missing part is [undefined], which parses to
    [NaN]. *)
Definition parseInt_at (parts : list string) (i : nat) : num :=
  match nth_error parts i with
  | Some p => parseInt p
  | None => NaN
  end.

(** All of [s] is decimal digits. *)
Fixpoint all_digits (s : string) (acc : Z) : option Z :=
  match s with
  | EmptyString => Some acc
  | String c rest =>
      match dec_digit c with
      | Some d => all_digits rest (10 * acc + d)
      | None => None
      end
  end.

Fixpoint rev_string (s acc : string) : string :=
  match s with
  | EmptyString => acc
  | String c rest => rev_string rest (String c acc)
  end.

Definition trim (s : string) : string :=
  rev_string (skip_ws (rev_string (skip_ws s) "")) "".

(** [Number(s)] on a string, for the literals a time field holds: optional
    surrounding white space, an optional sign and decimal digits; the empty
    string is [0].  Literals with a fraction, an exponent, a radix prefix or
    [Infinity] are outside the model and read as [NaN] here. *)
Definition Number (s : string) : num :=
  let '(sign, s2) := strip_sign (trim s) in
  match s2 with
  | EmptyString => if String.eqb (trim s) "" then Some 0 else None
  | _ => match all_digits s2 0 with
         | Some n => Some (sign * n)
         | None => None
         end
  end.

(** [a > b] on strings: the order of the code units.  It also stands for
    [a.localeCompare(b) > 0] (lines 938 and 1387), which is the same order
    on the zero-padded [HH:MM] strings a time input yields and on those
    only: a locale collation orders other strings, such as [1:30] and
    [09:00], differently. *)
Definition string_gt (a b : string) : bool := String.ltb b a.

(** [l.sort(cmp)] for a comparator that orders by a string key.  The model
    inserts each element after the elements whose key is not greater, so
    elements with equal keys keep their order, as they do under the
    [localeCompare] comparators.  The comparator of the first variant
    (line 146) answers [-1] on equal keys, and the order in which the
    engine's sort then leaves elements with equal keys is not this one. *)
Fixpoint insert_by {A : Type} (key : A -> string) (x : A) (l : list A) : list A :=
  match l with
  | [] => [x]
  | y :: rest => if string_gt (key y) (key x) then x :: l
                 else y :: insert_by key x rest
  end.

Definition sort_by {A : Type} (key : A -> string) (l : list A) : list A :=
  fold_left (fun acc x => insert_by key x acc) l [].

(** A [Date] of the current day, in milliseconds since local midnight. *)
Definition Date := Z.

Definition getHours (d : Date) : Z := (d / 3600000) mod 24.
Definition getMinutes (d : Date) : Z := (d / 60000) mod 60.

Definition digit_char (d : Z) : ascii := ascii_of_nat (Z.to_nat (48 + d mod 10)).

(** [num.toString().padStart(2, '0')] for [0 <= n < 100]. *)
Definition pad (n : Z) : string :=
  String (digit_char (n / 10)) (String (digit_char n) EmptyString).

(** [n.toString()] for an integer: the decimal digits, with a minus sign for
    a negative number. *)
Fixpoint digits_of (fuel : nat) (n : Z) (acc : string) : string :=
  match fuel with
  | O => acc
  | S f => if n <? 10 then String (digit_char n) acc
           else digits_of f (n / 10) (String (digit_char n) acc)
  end.

Definition toString (n : Z) : string :=
  if n <? 0 then String "-"%char (digits_of (S (Z.to_nat (Z.log2 (- n)))) (- n) EmptyString)
  else digits_of (S (Z.to_nat (Z.log2 n))) n EmptyString.

(** [`${x}`] for a number that may be [NaN]. *)
Definition numToString (x : num) : string :=
  match x with
  | Some n => toString n
  | None => "NaN"
  end.

(** [Math.floor(a / b)] and [Math.ceil(a / b)] for integers and [b > 0]. *)
Definition floorDiv (a b : Z) : Z := a / b.
Definition ceilDiv (a b : Z) : Z := - ((- a) / b).

(** [s.includes(sub)]. *)
Fixpoint includes (s sub : string) : bool :=
  if String.prefix sub s then true
  else match s with
       | EmptyString => false
       | String _ rest => includes rest sub
       end.

End JS.

(** The instant [h:m:s] of the current day. *)
Definition at_hms (h m s : Z) : JS.Date := ((h * 60 + m) * 60 + s) * 1000.

(** ** First variant (source lines 1-678) *)

Module V1.

Definition OVERTIME_GRACE_MINUTES : Z := 15.
Definition OVERTIME_TRIGGER_MINUTES : Z := 20.

Definition MOTIVATIONAL_PHRASES : list string :=
  [ "Time is gold, don't waste it!";
    "Keep it up, you can do it!";
    "Amazing work done!";
    "Cheer up! Clean it up!";
    "Every second counts!";
    "Your focus is your power!";
    "Make today great!";
    "The time to act is now!" ].

(** [getMotivationalWord()]; [random] stands for
    [Math.floor(Math.random() * MOTIVATIONAL_PHRASES.length)]. *)
Definition getMotivationalWord (random : nat) : string :=
  nth random MOTIVATIONAL_PHRASES "".

(** Every name bound at module level: the imports of lines 1-14 and the
    top-level declarations of the variant.  An identifier that is neither a
    local of the running function nor in this list nor a property of the
    global object does not resolve, and evaluating it throws a
    [ReferenceError]. *)
Definition module_scope : list string :=
  [ "React"; "useState"; "useEffect"; "useCallback"; "useMemo"; "createRoot";
    "initializeApp";
    "getAuth"; "signInAnonymously"; "signInWithCustomToken"; "onAuthStateChanged";
    "getFirestore"; "doc"; "getDoc"; "setDoc"; "onSnapshot"; "collection";
    "query"; "where"; "addDoc"; "getDocs"; "updateDoc"; "Timestamp";
    "setLogLevel";
    "Clock"; "Hand"; "User"; "List"; "LogOut"; "Plus"; "CheckCircle"; "XCircle";
    "Settings"; "Menu"; "Award";
    "firebaseConfigStr"; "initialAuthToken"; "appId"; "MOTIVATIONAL_PHRASES";
    "pad"; "getMotivationalWord"; "formatTime"; "formatMinutes";
    "useFirebaseSetup"; "useFirestoreDocument"; "useFirestoreCollection"; "App" ].

Definition resolves (ident : string) : bool :=
  existsb (String.eqb ident) module_scope.

(** A document of the [schedules] collection, with the id [onSnapshot] adds. *)
Record Schedule := {
  id : string;
  name : string;
  startTime : string;
  endTime : string
}.

Inductive HistoryStatus := OVERTIME | ON_TIME.

(** A document of the [history] collection. *)
Record HistoryItem := {
  h_name : string;
  scheduledStartTime : string;
  scheduledEndTime : string;
  finishedAt : JS.Date;
  h_status : HistoryStatus;
  durationMinutes : JS.num
}.

(** The value of [showNotification] when a popup is up. *)
Record Notification := {
  message : string;
  nextTask : string
}.

Record State := {
  db : bool;
  userId : option string;
  schedules : list Schedule;
  history : list HistoryItem;
  showNotification : option Notification;
  localStorage : gmap string string;
  console : list string;
  (** Observation only: the ids the reminder popup was raised for, oldest
      first.  No handler reads it. *)
  emitted : list string
}.

(** What a handler asks of its environment. *)
Record Env := {
  clock : JS.Date;       (* the value of [new Date()] *)
  random : nat;          (* the index [getMotivationalWord] draws *)
  addDoc_ok : bool;      (* [addDoc] resolves *)
  deleteDoc_ok : bool    (* [deleteDoc] would resolve, were it bound *)
}.

Definition truthy (s : string) : bool := negb (String.eqb s "").

Definition notifiedKey (taskId : string) : string := "notified-" +:+ taskId.

(** [localStorage.getItem(k)] is truthy. *)
Definition getItem_truthy (ls : gmap string string) (k : string) : bool :=
  match ls !! k with
  | Some v => truthy v
  | None => false
  end.

(** [parseInt(t.split(':')[0]) * 60 + parseInt(t.split(':')[1])], the
    expression the variant repeats for every time string. *)
Definition minutesOf (t : string) : JS.num :=
  JS.add (JS.mul (JS.parseInt_at (JS.split ":" t) 0) (Some 60))
         (JS.parseInt_at (JS.split ":" t) 1).

(** [d.getHours() * 60 + d.getMinutes()]. *)
Definition minutesOfDate (d : JS.Date) : JS.num :=
  Some (JS.getHours d * 60 + JS.getMinutes d).

Definition log (msg : string) (st : State) : State :=
  {| db := db st; userId := userId st; schedules := schedules st;
     history := history st; showNotification := showNotification st;
     localStorage := localStorage st; console := console st ++ [msg];
     emitted := emitted st |}.

(** The [try] block of step 1 of [handleFinishTask] when [addDoc] resolves. *)
Definition addHistory (item : HistoryItem) (taskId : string) (st : State) : State :=
  {| db := db st; userId := userId st; schedules := schedules st;
     history := history st ++ [item];
     showNotification := None;
     localStorage := delete (notifiedKey taskId) (localStorage st);
     console := console st; emitted := emitted st |}.

(** What [deleteDoc] on the document [taskId] does to the collection. *)
Definition removeSchedule (taskId : string) (st : State) : State :=
  {| db := db st; userId := userId st;
     schedules := List.filter (fun s => negb (String.eqb (id s) taskId)) (schedules st);
     history := history st; showNotification := showNotification st;
     localStorage := localStorage st; console := console st;
     emitted := emitted st |}.

(** [handleFinishTask(taskId, statusOverride)] (lines 320-357). *)
Definition handleFinishTask (env : Env) (taskId : string)
    (statusOverride : option string) (st : State) : State :=
  if negb (db st) || negb (from_option truthy false (userId st)) || negb (truthy taskId)
  then st
  else
    match List.find (fun s => String.eqb (id s) taskId) (schedules st) with
    | None => st
    | Some task =>
        let finishedAt := clock env in
        let endMinutes := minutesOf (endTime task) in
        let finishedMinutes := minutesOfDate finishedAt in
        let isOvertime :=
          from_option (String.eqb "OVERTIME") false statusOverride
          || JS.gt finishedMinutes (JS.add endMinutes (Some OVERTIME_GRACE_MINUTES)) in
        (* 1. Add to History *)
        let st1 :=
          if addDoc_ok env then
            addHistory
              {| h_name := name task;
                 scheduledStartTime := startTime task;
                 scheduledEndTime := endTime task;
                 finishedAt := finishedAt;
                 h_status := if isOvertime then OVERTIME else ON_TIME;
                 durationMinutes := JS.sub finishedMinutes (minutesOf (startTime task)) |}
              taskId st
          else log "Error adding to history:" st in
        (* 2. Remove from Schedules *)
        if resolves "deleteDoc" then
          if deleteDoc_ok env then removeSchedule taskId st1
          else log "Error deleting schedule:" st1
        else log "Error deleting schedule: ReferenceError: deleteDoc is not defined" st1
    end.

Inductive AttentionStatus := RUNNING | ON_TIME_WINDOW | OVERDUE.

(** What [activeSchedule] holds: the schedule's own fields and the [status]
    field, which is [undefined] when the schedule comes from the second
    [find] (that [find] returns the array element, not the object its callback
    builds). *)
Record Active := {
  task : Schedule;
  status : option AttentionStatus
}.

(** The callback of the first [find] (lines 208-212). *)
Definition isRunning (nowMinutes : JS.num) (s : Schedule) : bool :=
  JS.ge nowMinutes (minutesOf (startTime s)) && JS.lt nowMinutes (minutesOf (endTime s)).

(** The test of line 225: the schedule has ended and its 20 minutes have not
    passed. *)
Definition inWindow (nowMinutes : JS.num) (s : Schedule) : bool :=
  JS.ge nowMinutes (minutesOf (endTime s))
  && JS.lt nowMinutes (JS.add (minutesOf (endTime s)) (Some OVERTIME_TRIGGER_MINUTES)).

(** The test of line 240. *)
Definition reminderDue (nowMinutes : JS.num) (s : Schedule) (st : State) : bool :=
  JS.seq nowMinutes (minutesOf (endTime s))
  && negb (bool_decide (is_Some (showNotification st)))
  && negb (getItem_truthy (localStorage st) (notifiedKey (id s))).

(** The body of the reminder branch (lines 241-245): the marker is stored and
    the popup is raised. *)
Definition raiseReminder (env : Env) (s : Schedule) (nextSchedule : option Schedule)
    (st : State) : State :=
  {| db := db st; userId := userId st; schedules := schedules st;
     history := history st;
     showNotification :=
       Some {| message := getMotivationalWord (random env) +:+ "! Your '" +:+ name s +:+ "' task is due.";
               nextTask := match nextSchedule with
                           | Some n => "Next up: " +:+ name n +:+ " at " +:+ startTime n
                           | None => "You have no more scheduled tasks."
                           end |};
     localStorage := <[notifiedKey (id s) := "true"]> (localStorage st);
     console := console st;
     emitted := emitted st ++ [id s] |}.

(** [nextSchedule] (lines 234-236). *)
Definition nextScheduleAfter (autoAdvanceMinutes : JS.num) (l : list Schedule)
    : option Schedule :=
  List.find (fun next => JS.ge (minutesOf (startTime next)) autoAdvanceMinutes) l.

(** The [status] of the object the callback of the second [find] builds
    (line 249). *)
Definition windowStatus (nowMinutes : JS.num) (s : Schedule) : AttentionStatus :=
  if JS.le nowMinutes (JS.add (minutesOf (endTime s)) (Some OVERTIME_GRACE_MINUTES))
  then ON_TIME_WINDOW else OVERDUE.

(** The callback of the second [find] (lines 219-258): whether it returns a
    truthy value, and the state it leaves.  The object it builds at lines
    251-255 is truthy and [find] drops it. *)
Definition overdueCallback (env : Env) (nowMinutes : JS.num) (s : Schedule)
    (st : State) : bool * State :=
  let endMinutes := minutesOf (endTime s) in
  let autoAdvanceMinutes := JS.add endMinutes (Some OVERTIME_TRIGGER_MINUTES) in
  if JS.ge nowMinutes endMinutes && JS.lt nowMinutes autoAdvanceMinutes then
    if JS.ge nowMinutes autoAdvanceMinutes && db st then
      (false, handleFinishTask env (id s) (Some "OVERTIME") st)
    else
      let nextSchedule := nextScheduleAfter autoAdvanceMinutes (schedules st) in
      (true, if reminderDue nowMinutes s st then raiseReminder env s nextSchedule st else st)
  else (false, st).

(** [l.find(callback)] for the callback above, which has effects: the
    callback runs on the elements in order until it returns a truthy value. *)
Fixpoint findOverdue (env : Env) (nowMinutes : JS.num) (l : list Schedule)
    (st : State) : option Schedule * State :=
  match l with
  | [] => (None, st)
  | s :: rest =>
      let '(hit, st') := overdueCallback env nowMinutes s st in
      if hit then (Some s, st') else findOverdue env nowMinutes rest st'
  end.

(** The [useMemo] of lines 204-263. *)
Definition activeSchedule (env : Env) (currentTime : JS.Date) (st : State)
    : option Active * State :=
  let nowMinutes := minutesOfDate currentTime in
  match List.find (isRunning nowMinutes) (schedules st) with
  | Some currentTask => (Some {| task := currentTask; status := Some RUNNING |}, st)
  | None =>
      let '(overdueTask, st') := findOverdue env nowMinutes (schedules st) st in
      (match overdueTask with
       | Some s => Some {| task := s; status := None |}
       | None => None
       end, st')
  end.

(** The scheduling form of the variant. *)
Record ScheduleForm := {
  f_name : string;
  f_startTime : string;
  f_endTime : string
}.

(** [handleScheduleSubmit] (lines 300-317); [newId] is the document id
    Firestore assigns.  The snapshot listener (lines 139-152) delivers the
    collection sorted by [startTime]; among blocks with equal start times
    the order is the engine's (see [JS.sort_by]), and only the order of the
    keys is used below. *)
Definition handleScheduleSubmit (env : Env) (newId : string) (form : ScheduleForm)
    (st : State) : State :=
  if negb (db st) || negb (from_option truthy false (userId st)) then st
  else if addDoc_ok env then
    {| db := db st; userId := userId st;
       schedules := JS.sort_by startTime (schedules st ++
         [ {| id := newId; name := f_name form;
              startTime := f_startTime form; endTime := f_endTime form |} ]);
       history := history st; showNotification := showNotification st;
       localStorage := localStorage st; console := console st;
       emitted := emitted st |}
  else log "Error adding schedule:" st.

Definition set_showNotification (n : option Notification) (st : State) : State :=
  {| db := db st; userId := userId st; schedules := schedules st;
     history := history st; showNotification := n;
     localStorage := localStorage st; console := console st;
     emitted := emitted st |}.

(** What happens to the mounted [App].  Every event ends with a render, which
    evaluates [activeSchedule] at the [currentTime] of the state.  The popup's
    close button clears [showNotification] (line 652); the finish button calls
    [handleFinishTask(activeSchedule.id)] (line 598); a restart resets React
    state and keeps [localStorage] and the store. *)
Inductive Event :=
  | Tick (now : JS.Date)
  | CloseNotification
  | Finish (e : Env)
  | Restart (now : JS.Date).

Definition step (env : Env) (ev : Event) (cs : JS.Date * State) : JS.Date * State :=
  let '(currentTime, st) := cs in
  match ev with
  | Tick now => (now, snd (activeSchedule env now st))
  | CloseNotification =>
      (currentTime, snd (activeSchedule env currentTime (set_showNotification None st)))
  | Finish e =>
      match fst (activeSchedule env currentTime st) with
      | Some a =>
          (currentTime,
           snd (activeSchedule env currentTime (handleFinishTask e (id (task a)) None st)))
      | None => cs
      end
  | Restart now => (now, snd (activeSchedule env now (set_showNotification None st)))
  end.

Definition run (env : Env) (evs : list Event) (cs : JS.Date * State) : JS.Date * State :=
  fold_left (fun acc ev => step env ev acc) evs cs.

Definition isFinish (ev : Event) : bool :=
  match ev with Finish _ => true | _ => false end.

(** [formatTime] (line 39). *)
Definition formatTime (date : JS.Date) : string :=
  JS.pad (JS.getHours date) +:+ ":" +:+ JS.pad (JS.getMinutes date).

(** The heading of the active panel (lines 587-590) and the label of its
    finish button (lines 607-609).  Neither object [activeSchedule] can hold
    has a [minutesPastDue] field, so the template prints [undefined] for it. *)
Definition panelHeading (a : Active) : string :=
  match status a with
  | Some RUNNING => "Currently Active"
  | Some ON_TIME_WINDOW => "Time to Finish!"
  | _ => "Overdue Task"
  end.

Definition finishButtonLabel (a : Active) : string :=
  match status a with
  | Some RUNNING => "FINISH NOW"
  | Some ON_TIME_WINDOW => "FINISH (ON TIME)"
  | _ => "FINISH (OVERDUE: +undefined min)"
  end.

End V1.

(** ** Second variant (source lines 680-1515) *)

Module V2.

Definition APP_NAME : string := "Time Manipulation".

Inductive Status := pending | active | completed | overtimed.

(** An element of the [tasks] array of the [schedules/today] document. *)
Record Task := {
  id : string;
  activity : string;
  startTime : string;
  endTime : string;
  status : Status
}.

Inductive HistoryStatus := on_time | h_overtimed.

(** A document of the [history/activities] collection. *)
Record HistoryRecord := {
  h_activity : string;
  scheduledStart : string;
  scheduledEnd : string;
  actualEnd : string;
  h_status : HistoryStatus;
  date : string;
  h_userId : string
}.

Record NotificationState := {
  isActive : bool;
  n_currentTask : option Task;
  n_nextTask : option Task
}.

Record State := {
  userId : string;
  notificationPermission : string;
  (** [schedules.tasks], as the snapshot listener last delivered it. *)
  tasks : list Task;
  history : list HistoryRecord;
  notificationState : NotificationState;
  (** The [error] state of [AddScheduleForm]. *)
  formError : string;
  console : list string;
  (** Observation only: the ids the reminder popup was raised for, and the
      bodies of the browser notifications, oldest first. *)
  emitted : list string;
  browserNotifications : list string
}.

Record Env := {
  clock : JS.Date;     (* the value of [new Date()] *)
  today : string;      (* [new Date().toISOString().split('T')[0]] *)
  newId : string;      (* [Date.now().toString()] *)
  addDoc_ok : bool;    (* [addDoc] resolves *)
  setDoc_ok : bool     (* [setDoc] resolves *)
}.

Definition truthy (s : string) : bool := negb (String.eqb s "").

(** [timeStringToDate] (lines 723-728): the date of today at the hours and
    minutes of the string, invalid when either is [NaN] or missing.  The
    fields are read by [JS.Number], with the literals it leaves out, and the
    range of a [Date] is not modelled: hours beyond what a [Date] can hold
    give a number here and [Invalid Date] in the code.  On the [HH:MM]
    strings of a time input the two agree. *)
Definition timeStringToDate (timeStr : string) : JS.num :=
  let parts := List.map JS.Number (JS.split ":" timeStr) in
  let hours := nth 0 parts JS.NaN in
  let minutes := nth 1 parts JS.NaN in
  JS.add (JS.mul hours (Some 3600000)) (JS.mul minutes (Some 60000)).

(** [d.toLocaleTimeString('en-US', { hour: '2-digit', minute: '2-digit',
    hour12: false })]: hours and minutes on two digits; the hour of midnight
    is printed [00] here. *)
Definition toLocaleTimeString (d : JS.num) : string :=
  match d with
  | Some z => JS.pad (JS.getHours z) +:+ ":" +:+ JS.pad (JS.getMinutes z)
  | None => "Invalid Date"
  end.

Definition set_notification (n : NotificationState) (st : State) : State :=
  {| userId := userId st; notificationPermission := notificationPermission st;
     tasks := tasks st; history := history st;
     notificationState := n;
     formError := formError st; console := console st;
     emitted := emitted st; browserNotifications := browserNotifications st |}.

Definition set_tasks (ts : list Task) (st : State) : State :=
  {| userId := userId st; notificationPermission := notificationPermission st;
     tasks := ts; history := history st;
     notificationState := notificationState st;
     formError := formError st; console := console st;
     emitted := emitted st; browserNotifications := browserNotifications st |}.

Definition set_formError (e : string) (st : State) : State :=
  {| userId := userId st; notificationPermission := notificationPermission st;
     tasks := tasks st; history := history st;
     notificationState := notificationState st;
     formError := e; console := console st;
     emitted := emitted st; browserNotifications := browserNotifications st |}.

Definition log (msg : string) (st : State) : State :=
  {| userId := userId st; notificationPermission := notificationPermission st;
     tasks := tasks st; history := history st;
     notificationState := notificationState st;
     formError := formError st; console := console st ++ [msg];
     emitted := emitted st; browserNotifications := browserNotifications st |}.

Definition push_history (r : HistoryRecord) (st : State) : State :=
  {| userId := userId st; notificationPermission := notificationPermission st;
     tasks := tasks st; history := history st ++ [r];
     notificationState := notificationState st;
     formError := formError st; console := console st;
     emitted := emitted st; browserNotifications := browserNotifications st |}.

(** The snapshot listener (lines 1383-1392) sorts the stored array by
    [startTime] before it becomes [schedules.tasks]. *)
Definition deliver (stored : list Task) (st : State) : State :=
  set_tasks (JS.sort_by startTime stored) st.

Definition terminal (t : Task) : bool :=
  match status t with
  | completed | overtimed => true
  | _ => false
  end.

(** [activeTasks] (line 1043). *)
Definition activeTasks (ts : list Task) : list Task :=
  List.filter (fun t => negb (terminal t)) ts.

Definition MS_15_MIN : Z := 15 * 60000.
Definition MS_20_MIN : Z := 20 * 60000.

(** The callback of [activeTasks.find] (lines 1044-1049). *)
Definition isCurrent (currentTime : JS.Date) (task : Task) : bool :=
  let start := timeStringToDate (startTime task) in
  let end_ := timeStringToDate (endTime task) in
  JS.ge (Some currentTime) start
  && JS.lt (Some currentTime) (JS.add end_ (Some MS_20_MIN))
  && negb (terminal task).

Definition currentTask (currentTime : JS.Date) (ts : list Task) : option Task :=
  List.find (isCurrent currentTime) (activeTasks ts).

(** [ts.findIndex(t => t.id === taskId)]; [None] is [-1]. *)
Fixpoint findIndex (taskId : string) (ts : list Task) : option nat :=
  match ts with
  | [] => None
  | t :: rest => if String.eqb (id t) taskId then Some 0%nat
                 else option_map S (findIndex taskId rest)
  end.

(** [nextTask] (lines 1050-1052). *)
Definition nextTask (current : option Task) (ts : list Task) : option Task :=
  match current with
  | None => None
  | Some c =>
      match findIndex (id c) ts with
      | Some i => nth_error ts (S i)
      | None => None
      end
  end.

(** [{ ...t, status: newStatus }]. *)
Definition withStatus (newStatus : Status) (t : Task) : Task :=
  {| id := id t; activity := activity t;
     startTime := startTime t; endTime := endTime t;
     status := newStatus |}.

(** [updateTaskStatus] (lines 1091-1101). *)
Definition updateTaskStatus (env : Env) (taskId : string) (newStatus : Status)
    (st : State) : State :=
  let updatedTasks :=
    List.map (fun t => if String.eqb (id t) taskId then withStatus newStatus t else t)
             (tasks st) in
  if setDoc_ok env then deliver updatedTasks st
  else log "Error updating task status:" st.

(** [logActivityToHistory] (lines 1104-1118). *)
Definition logActivityToHistory (env : Env) (task : Task) (actualEndTime : JS.num)
    (outcome : HistoryStatus) (st : State) : State :=
  if addDoc_ok env then
    push_history
      {| h_activity := activity task;
         scheduledStart := startTime task;
         scheduledEnd := endTime task;
         actualEnd := toLocaleTimeString actualEndTime;
         h_status := outcome;
         date := today env;
         h_userId := userId st |} st
  else log "Error logging history:" st.

Definition idle : NotificationState :=
  {| isActive := false; n_currentTask := None; n_nextTask := None |}.

(** The part of [handleFinished] after its first line (lines 1123-1135): the
    guard on [currentTask] and the two awaited writes, the history record
    first and the status second.  [current] is the [currentTask] of the
    render the handler was created in.  The handler is asynchronous: between
    its first line and these writes React renders the component again (see
    [step]). *)
Definition finishWrites (env : Env) (current : option Task) (st : State) : State :=
  match current with
  | None => st
  | Some c =>
      let scheduledEnd := timeStringToDate (endTime c) in
      let actualEnd := Some (clock env) in
      let overtimeTrigger := JS.add scheduledEnd (Some MS_15_MIN) in
      let outcome := if JS.gt actualEnd overtimeTrigger then h_overtimed else on_time in
      let st1 := logActivityToHistory env c actualEnd outcome st in
      updateTaskStatus env (id c) completed st1
  end.

(** [handleFinished] (lines 1121-1137) as the list of the state changes the
    handler itself makes, in the order it makes them: the popup state is
    reset (line 1122), then the writes.  Its [history] and [tasks] are those
    of the program after the handler; its [notificationState] is not, for
    the render between line 1122 and the writes can raise the reminder again
    (see [step]). *)
Definition handleFinished (env : Env) (current : option Task) (st : State) : State :=
  finishWrites env current (set_notification idle st).

(** [handleOvertimeAdvance] (lines 1140-1151). *)
Definition handleOvertimeAdvance (env : Env) (current : option Task)
    (scheduledEnd : JS.num) (st : State) : State :=
  let st0 := set_notification idle st in
  match current with
  | None => st0
  | Some c =>
      let autoAdvanceTime := JS.add scheduledEnd (Some MS_20_MIN) in
      let st1 := logActivityToHistory env c autoAdvanceTime h_overtimed st0 in
      updateTaskStatus env (id c) overtimed st1
  end.

(** The body of the reminder branch (lines 1074-1080). *)
Definition raiseReminder (current : Task) (next : option Task) (st : State) : State :=
  let st1 := set_notification
               {| isActive := true; n_currentTask := Some current; n_nextTask := next |} st in
  {| userId := userId st1; notificationPermission := notificationPermission st1;
     tasks := tasks st1; history := history st1;
     notificationState := notificationState st1;
     formError := formError st1; console := console st1;
     emitted := emitted st1 ++ [id current];
     browserNotifications :=
       if String.eqb (notificationPermission st1) "granted"
       then browserNotifications st1 ++
              [ "Reminder: " +:+ activity current +:+ " is scheduled to end. Next: "
                +:+ match next with Some n => activity n | None => "N/A" end ]
       else browserNotifications st1 |}.

(** The timing effect (lines 1063-1088), run after a render with the
    [currentTime] and the [currentTask] of that render. *)
Definition timingEffect (env : Env) (currentTime : JS.Date) (st : State) : State :=
  let current := currentTask currentTime (tasks st) in
  match current with
  | None => st
  | Some c =>
      if isActive (notificationState st) then st
      else
        let scheduledEnd := timeStringToDate (endTime c) in
        let overtimeTrigger := JS.add scheduledEnd (Some MS_15_MIN) in
        let autoAdvanceTrigger := JS.add scheduledEnd (Some MS_20_MIN) in
        (* 1. Reminder Notification Trigger *)
        let st1 :=
          if JS.ge (Some currentTime) scheduledEnd && JS.lt (Some currentTime) overtimeTrigger
          then if negb (isActive (notificationState st))
               then raiseReminder c (nextTask current (tasks st)) st
               else st
          else st in
        (* 2. Overtime & Auto-Advance Trigger *)
        if JS.ge (Some currentTime) autoAdvanceTrigger
        then handleOvertimeAdvance env current scheduledEnd st1
        else st1
  end.

(** [AddScheduleForm.handleSubmit] (lines 913-952). *)
Definition handleSubmit (env : Env) (activity_ startTime_ endTime_ : string)
    (st : State) : State :=
  let st0 := set_formError "" st in
  if negb (truthy activity_) || negb (truthy startTime_) || negb (truthy endTime_)
  then set_formError "Please fill in all fields." st0
  else
    let start := timeStringToDate startTime_ in
    let end_ := timeStringToDate endTime_ in
    if JS.le end_ start
    then set_formError "End time must be after start time." st0
    else
      let newSchedule :=
        {| id := newId env; activity := activity_;
           startTime := startTime_; endTime := endTime_; status := pending |} in
      let newTasks := JS.sort_by startTime (tasks st0 ++ [newSchedule]) in
      if setDoc_ok env then deliver newTasks st0
      else set_formError "Failed to save schedule. Try again."
             (log "Error adding document: " st0).

(** [AddScheduleForm.handleRemove] (lines 954-962). *)
Definition handleRemove (env : Env) (taskId : string) (st : State) : State :=
  let newTasks := List.filter (fun t => negb (String.eqb (id t) taskId)) (tasks st) in
  if setDoc_ok env then deliver newTasks st
  else log "Error removing task:" st.

(** What happens to a mounted [MainScheduler], that is, to the hooks and
    handlers of the component as functions of its state, taking the render
    that holds them to complete (as written, it throws at line 1184, see
    [V2App.content]).  The reminder popup has one
    control, the button [Acknowledge & Finish], whose handler is
    [handleFinished] (lines 756-761 and 1226-1232); the finish button of the
    task card has the same handler.  A restart mounts the component anew:
    React state starts from its initial value, the store keeps its
    documents. *)
Inductive Event :=
  | Tick (now : JS.Date)
  | Acknowledge (env : Env)
  | Restart (now : JS.Date).

(** A click on a control whose handler is [handleFinished], with the renders
    React interleaves.  The handler resets the popup state and yields at its
    first [await]; the component renders, and the timing effect, which
    depends on [notificationState.isActive] (line 1088), runs again when the
    popup was showing, with the task still unfinished.  Then the writes
    land; the snapshot of a status write that succeeded gives a new
    [currentTask], so the effect runs once more.  The writes are taken to
    land before the next tick. *)
Definition acknowledge (env e : Env) (currentTime : JS.Date) (st : State) : State :=
  let current := currentTask currentTime (tasks st) in
  let closed := set_notification idle st in
  let rendered :=
    if isActive (notificationState st) then timingEffect env currentTime closed
    else closed in
  let written := finishWrites e current rendered in
  match current with
  | Some _ => if setDoc_ok e then timingEffect env currentTime written else written
  | None => written
  end.

(** The machine state: the [currentTime] of the last render and the rest. *)
Definition step (env : Env) (ev : Event) (cs : JS.Date * State) : JS.Date * State :=
  let '(currentTime, st) := cs in
  match ev with
  | Tick now => (now, timingEffect env now st)
  | Acknowledge e => (currentTime, acknowledge env e currentTime st)
  | Restart now => (now, timingEffect env now (set_notification idle st))
  end.

Definition run (env : Env) (evs : list Event) (cs : JS.Date * State) : JS.Date * State :=
  fold_left (fun acc ev => step env ev acc) evs cs.

(** [finishButtonStatus] (lines 1156-1176); [now] is the [new Date()] of the
    memo. *)
Record ButtonStatus := {
  text : string;
  style : string
}.

Definition finishButtonStatus (now : JS.Date) (current : option Task) : ButtonStatus :=
  match current with
  | None => {| text := "No Active Task"; style := "bg-gray-400 cursor-not-allowed" |}
  | Some c =>
      let scheduledEnd := timeStringToDate (endTime c) in
      let overtimeTrigger := JS.add scheduledEnd (Some MS_15_MIN) in
      let autoAdvanceTrigger := JS.add scheduledEnd (Some MS_20_MIN) in
      let timeLeftMs := JS.sub scheduledEnd (Some now) in
      let overtimeMinutes :=
        option_map (fun d => JS.floorDiv d 60000) (JS.sub (Some now) scheduledEnd) in
      if JS.lt (Some now) scheduledEnd then
        {| text := "Finish Task (Ends in "
                   +:+ JS.numToString (option_map (fun d => JS.ceilDiv d 60000) timeLeftMs)
                   +:+ " min)";
           style := "bg-indigo-600 hover:bg-indigo-700" |}
      else if JS.ge (Some now) scheduledEnd && JS.lt (Some now) overtimeTrigger then
        {| text := "FINISH NOW (On Time Window!)";
           style := "bg-green-600 hover:bg-green-700 animate-pulse" |}
      else if JS.ge (Some now) overtimeTrigger && JS.lt (Some now) autoAdvanceTrigger then
        {| text := "FINISH! (+" +:+ JS.numToString overtimeMinutes +:+ " min Overtime)";
           style := "bg-red-500 hover:bg-red-600 shadow-xl" |}
      else
        {| text := "Task Overdue (Auto-Advancing)";
           style := "bg-gray-500 cursor-not-allowed" |}
  end.

(** The [disabled] attribute of the finish button (line 1204). *)
Definition finishDisabled (now : JS.Date) (current : option Task) : bool :=
  negb (bool_decide (is_Some current))
  || JS.includes (style (finishButtonStatus now current)) "cursor-not-allowed".

End V2.

(** ** Onboarding of the second variant (source lines 767-903 and 1312-1455) *)

Module V2App.

Inductive View := loading | permissions | setup | main | profile.

(** The profile document (lines 1421-1425).  [notificationPermission] holds
    the value of the state [initialNotificationStatus]: [None] is the boolean
    [false] the state starts with, [Some s] a string. *)
Record Profile := {
  name : string;
  birthday : string;
  nickname : string;
  p_userId : string;
  notificationPermission : option string
}.

(** The form of [ProfileSetup]. *)
Record ProfileForm := {
  f_name : string;
  f_birthday : string;
  f_nickname : string
}.

(** The [status] state of [PermissionRequest]. *)
Inductive PermissionStatus := ps_pending | ps_granted | ps_denied.

Record State := {
  db : bool;
  userId : option string;
  isAuthReady : bool;
  view : View;
  (** The [view] the profile listener closed over when it subscribed. *)
  listenerView : View;
  (** The [profile] state and the profile document of the store. *)
  profileState : option Profile;
  storedProfile : option Profile;
  initialNotificationStatus : option string;
  permissionStatus : PermissionStatus;
  (** The [error] state of [ProfileSetup]. *)
  setupError : string;
  console : list string
}.

Definition truthy (s : string) : bool := negb (String.eqb s "").

Definition set_view (v : View) (st : State) : State :=
  {| db := db st; userId := userId st; isAuthReady := isAuthReady st;
     view := v; listenerView := listenerView st;
     profileState := profileState st; storedProfile := storedProfile st;
     initialNotificationStatus := initialNotificationStatus st;
     permissionStatus := permissionStatus st; setupError := setupError st;
     console := console st |}.

(** The element [App] builds in its variable [content] (lines 1435-1455).
    It is what [App] hands to React, which is what is on screen for the
    loading, permission and setup elements.  [MainSchedulerScreen p] is the
    element [<MainScheduler profile={p} ... />]: the render of
    [MainScheduler] reads [setSchedules] at line 1184, which is not among
    the props it takes (line 1034) and is bound nowhere else in its scope,
    so that render throws and the scheduler does not come on screen. *)
Inductive Content :=
  | LoadingScreen
  | PermissionRequestScreen
  | ProfileSetupScreen
  | MainSchedulerScreen (p : Profile)
  | ProfileHistoryScreen (p : Profile)
  | SomethingWentWrong.

Definition content (st : State) : Content :=
  match view st, isAuthReady st, profileState st with
  | loading, _, _ => LoadingScreen
  | _, false, _ => LoadingScreen
  | permissions, _, _ => PermissionRequestScreen
  | setup, _, _ => ProfileSetupScreen
  | main, _, Some p => MainSchedulerScreen p
  | profile, _, Some p => ProfileHistoryScreen p
  | _, _, _ => SomethingWentWrong
  end.

(** [requestPermissions] of [PermissionRequest] (lines 771-784); [outcome] is
    what [Notification.requestPermission()] resolves to, [None] when it
    throws. *)
Definition requestPermissions (outcome : option string) (st : State) : State :=
  {| db := db st; userId := userId st; isAuthReady := isAuthReady st;
     view := view st; listenerView := listenerView st;
     profileState := profileState st; storedProfile := storedProfile st;
     initialNotificationStatus := initialNotificationStatus st;
     permissionStatus :=
       match outcome with
       | Some permission => if String.eqb permission "granted" then ps_granted else ps_denied
       | None => ps_denied
       end;
     setupError := setupError st; console := console st |}.

(** [handlePermissionComplete] (lines 1412-1415). *)
Definition handlePermissionComplete (granted : bool) (st : State) : State :=
  {| db := db st; userId := userId st; isAuthReady := isAuthReady st;
     view := setup; listenerView := listenerView st;
     profileState := profileState st; storedProfile := storedProfile st;
     initialNotificationStatus := Some (if granted then "granted" else "denied");
     permissionStatus := permissionStatus st; setupError := setupError st;
     console := console st |}.

(** The profile listener (lines 1368-1379), called with the document of the
    store. *)
Definition profileListener (st : State) : State :=
  match storedProfile st with
  | Some profileData =>
      let st1 :=
        {| db := db st; userId := userId st; isAuthReady := isAuthReady st;
           view := view st; listenerView := listenerView st;
           profileState := Some profileData; storedProfile := storedProfile st;
           initialNotificationStatus := initialNotificationStatus st;
           permissionStatus := permissionStatus st; setupError := setupError st;
           console := console st |} in
      match listenerView st with
      | loading | setup | permissions => set_view main st1
      | _ => st1
      end
  | None =>
      match listenerView st with
      | loading => set_view permissions st
      | _ => st
      end
  end.

(** [handleProfileComplete] (lines 1417-1430); a write that succeeds is
    followed by the snapshot of the new document. *)
Definition handleProfileComplete (setDoc_ok : bool) (formData : ProfileForm)
    (notificationStatus : option string) (st : State) : State :=
  match db st, userId st with
  | true, Some uid =>
      if truthy uid then
        if setDoc_ok then
          profileListener
            {| db := db st; userId := userId st; isAuthReady := isAuthReady st;
               view := view st; listenerView := listenerView st;
               profileState := profileState st;
               storedProfile :=
                 Some {| name := f_name formData; birthday := f_birthday formData;
                         nickname := f_nickname formData; p_userId := uid;
                         notificationPermission := notificationStatus |};
               initialNotificationStatus := initialNotificationStatus st;
               permissionStatus := permissionStatus st; setupError := setupError st;
               console := console st |}
        else
          {| db := db st; userId := userId st; isAuthReady := isAuthReady st;
             view := view st; listenerView := listenerView st;
             profileState := profileState st; storedProfile := storedProfile st;
             initialNotificationStatus := initialNotificationStatus st;
             permissionStatus := permissionStatus st; setupError := setupError st;
             console := console st ++ ["Error saving profile:"] |}
      else st
  | _, _ => st
  end.

(** [handleSubmit] of [ProfileSetup] (lines 844-851). *)
Definition handleSubmit (setDoc_ok : bool) (form : ProfileForm) (st : State) : State :=
  if negb (truthy (f_name form)) || negb (truthy (f_birthday form))
     || negb (truthy (f_nickname form))
  then
    {| db := db st; userId := userId st; isAuthReady := isAuthReady st;
       view := view st; listenerView := listenerView st;
       profileState := profileState st; storedProfile := storedProfile st;
       initialNotificationStatus := initialNotificationStatus st;
       permissionStatus := permissionStatus st;
       setupError := "Please fill out all fields.";
       console := console st |}
  else handleProfileComplete setDoc_ok form (initialNotificationStatus st) st.

(** What the user and the store can do during onboarding.  A control acts
    only while its screen is shown: the request button while the status is
    pending (line 811), the continue link once it is not (lines 820-828), the
    profile form on the setup screen. *)
Inductive Event :=
  | RequestPermissions (outcome : option string)
  | Continue
  | SubmitProfile (setDoc_ok : bool) (form : ProfileForm)
  | ProfileSnapshot.

Definition step (ev : Event) (st : State) : State :=
  match ev, content st, permissionStatus st with
  | RequestPermissions outcome, PermissionRequestScreen, ps_pending =>
      requestPermissions outcome st
  | Continue, PermissionRequestScreen, ps_granted => handlePermissionComplete true st
  | Continue, PermissionRequestScreen, ps_denied => handlePermissionComplete false st
  | SubmitProfile ok form, ProfileSetupScreen, _ => handleSubmit ok form st
  | ProfileSnapshot, _, _ => profileListener st
  | _, _, _ => st
  end.

Definition run (evs : list Event) (st : State) : State :=
  fold_left (fun acc ev => step ev acc) evs st.

(** The application once it is connected and signed in as [uid], before the
    first snapshot of the profile. *)
Definition signedIn (uid : string) : State :=
  {| db := true; userId := Some uid; isAuthReady := true;
     view := loading; listenerView := loading;
     profileState := None; storedProfile := None;
     initialNotificationStatus := None;
     permissionStatus := ps_pending; setupError := ""; console := [] |}.

(** A stored profile is complete: the three fields are filled and the
    permission is one of the two strings. *)
Definition complete (p : Profile) : Prop :=
  name p <> "" /\ birthday p <> "" /\ nickname p <> ""
  /\ (notificationPermission p = Some "granted"
      \/ notificationPermission p = Some "denied").

(** What every reachable state of the onboarding satisfies: the setup screen
    is shown with a permission string to store, and a profile that is stored
    or held is complete. *)
Definition inv (st : State) : Prop :=
  (view st = setup ->
     initialNotificationStatus st = Some "granted"
     \/ initialNotificationStatus st = Some "denied")
  /\ (forall p, storedProfile st = Some p -> complete p)
  /\ (forall p, profileState st = Some p -> complete p).

End V2App.

(** ** Derived descriptions of the engine *)

Section Derived.

Import V1.

(** The block [activeSchedule] returns, as a function of the minute and of
    the schedule list alone. *)
Definition V1_attention (nowMinutes : JS.num) (l : list Schedule) : option Active :=
  match List.find (isRunning nowMinutes) l with
  | Some c => Some {| task := c; status := Some RUNNING |}
  | None =>
      match List.find (inWindow nowMinutes) l with
      | Some s => Some {| task := s; status := None |}
      | None => None
      end
  end.

(** The state [activeSchedule] leaves when the second [find] stops at [s]. *)
Definition V1_afterReminder (env : Env) (nowMinutes : JS.num) (s : Schedule)
    (st : State) : State :=
  if reminderDue nowMinutes s st
  then raiseReminder env s
         (nextScheduleAfter
            (JS.add (minutesOf (endTime s)) (Some OVERTIME_TRIGGER_MINUTES))
            (schedules st)) st
  else st.

(** The guard of [handleFinishTask] (lines 321-324) lets the call through
    and finds [task]. *)
Definition finds (taskId : string) (st : State) (task : Schedule) : Prop :=
  db st = true
  /\ from_option truthy false (userId st) = true
  /\ truthy taskId = true
  /\ List.find (fun s => String.eqb (id s) taskId) (schedules st) = Some task.

(** The reminder an evaluation of [activeSchedule] raises: the id of the
    block, or nothing. *)
Definition V1_reminderFor (nowMinutes : JS.num) (st : State) : list string :=
  match List.find (isRunning nowMinutes) (schedules st) with
  | Some _ => []
  | None =>
      match List.find (inWindow nowMinutes) (schedules st) with
      | Some s => if reminderDue nowMinutes s st then [id s] else []
      | None => []
      end
  end.

End Derived.

(** The list is in the order of its string keys: no element's key is greater
    than the key of a later element.  The snapshot listeners deliver the
    schedule list in the order of [startTime]. *)
Definition inKeyOrder {A : Type} (key : A -> string) (l : list A) : Prop :=
  StronglySorted (fun a b => JS.string_gt (key a) (key b) = false) l.


(** The reminder a run of the timing effect of the second variant raises. *)
Definition V2_reminderFor (currentTime : JS.Date) (st : V2.State) : list string :=
  match V2.currentTask currentTime (V2.tasks st) with
  | Some c =>
      if negb (V2.isActive (V2.notificationState st))
         && JS.ge (Some currentTime) (V2.timeStringToDate (V2.endTime c))
         && JS.lt (Some currentTime)
              (JS.add (V2.timeStringToDate (V2.endTime c)) (Some V2.MS_15_MIN))
      then [V2.id c] else []
  | None => []
  end.

(** The ids the reminder was raised for after each prefix of a list of
    ticks. *)
Definition V1_tickTrace (env : V1.Env) (ticks : list JS.Date) (st : V1.State)
    : list (list string) :=
  map (fun n => V1.emitted
                  (snd (V1.run env (map V1.Tick (firstn n ticks)) (0, st))))
      (seq 1 (length ticks)).

Definition V2_tickTrace (env : V2.Env) (ticks : list JS.Date) (st : V2.State)
    : list (list string) :=
  map (fun n => V2.emitted
                  (snd (V2.run env (map V2.Tick (firstn n ticks)) (0, st))))
      (seq 1 (length ticks)).

(** The value of an [<input type="time">]: hours and minutes on two digits
    with a colon between them. *)
Definition hhmm (h m : Z) : string := JS.pad h +:+ ":" +:+ JS.pad m.

(** The order of two numbers on two digits, read off their characters. *)
Definition pad_compare (a b : Z) : comparison :=
  match Ascii.compare (JS.digit_char (a / 10)) (JS.digit_char (b / 10)) with
  | Eq => Ascii.compare (JS.digit_char a) (JS.digit_char b)
  | c => c
  end.

(** [t'] is the task [t] with the same id, activity and times, and with the
    status it had or the status completed. *)
Definition sameBlock (t t' : V2.Task) : Prop :=
  V2.id t' = V2.id t
  /\ V2.activity t' = V2.activity t
  /\ V2.startTime t' = V2.startTime t
  /\ V2.endTime t' = V2.endTime t
  /\ (V2.status t' = V2.status t \/ V2.status t' = V2.completed).

(** The form of the second variant takes the submission: the fields are
    filled, both times parse and the end is strictly later than the start. *)
Definition accepts (activity_ s e : string) : Prop :=
  V2.truthy activity_ = true /\ V2.truthy s = true /\ V2.truthy e = true
  /\ exists vs ve, V2.timeStringToDate s = Some vs
                   /\ V2.timeStringToDate e = Some ve /\ vs < ve.

(** ** Sample inputs *)

Module Sample.

(** A signed-in first-variant application holding the schedules [l]. *)
Definition v1_state (l : list V1.Schedule) : V1.State :=
  {| V1.db := true; V1.userId := Some "user"; V1.schedules := l;
     V1.history := []; V1.showNotification := None;
     V1.localStorage := ∅; V1.console := []; V1.emitted := [] |}.

Definition v1_env (now : JS.Date) : V1.Env :=
  {| V1.clock := now; V1.random := 0%nat;
     V1.addDoc_ok := true; V1.deleteDoc_ok := true |}.

Definition v1_block (i n s e : string) : V1.Schedule :=
  {| V1.id := i; V1.name := n; V1.startTime := s; V1.endTime := e |}.

(** A mounted second-variant scheduler holding the tasks [l]. *)
Definition v2_state (l : list V2.Task) : V2.State :=
  {| V2.userId := "user"; V2.notificationPermission := "denied";
     V2.tasks := l; V2.history := []; V2.notificationState := V2.idle;
     V2.formError := ""; V2.console := []; V2.emitted := [];
     V2.browserNotifications := [] |}.

Definition v2_env (now : JS.Date) : V2.Env :=
  {| V2.clock := now; V2.today := "2025-01-01"; V2.newId := "1735725600000";
     V2.addDoc_ok := true; V2.setDoc_ok := true |}.

Definition v2_task (i n s e : string) : V2.Task :=
  {| V2.id := i; V2.activity := n; V2.startTime := s; V2.endTime := e;
     V2.status := V2.pending |}.

End Sample.

(** ** Facts about the JavaScript layer *)

Section JSFacts.

Lemma lt_not_ge (a b : JS.num) : JS.lt a b = true -> JS.ge a b = false.
Proof.
  destruct a as [x|], b as [y|]; simpl; try discriminate.
  intros H. apply Z.ltb_lt in H. rewrite Z.geb_leb. apply Z.leb_gt. lia.
Qed.

Lemma ge_Some (x y : Z) : JS.ge (Some x) (Some y) = true <-> y <= x.
Proof. simpl. rewrite Z.geb_leb. apply Z.leb_le. Qed.

Lemma gt_Some (x y : Z) : JS.gt (Some x) (Some y) = true <-> y < x.
Proof. simpl. rewrite Z.gtb_ltb. apply Z.ltb_lt. Qed.

Lemma lt_Some (x y : Z) : JS.lt (Some x) (Some y) = true <-> x < y.
Proof. simpl. apply Z.ltb_lt. Qed.

Lemma le_Some (x y : Z) : JS.le (Some x) (Some y) = true <-> x <= y.
Proof. simpl. apply Z.leb_le. Qed.

Lemma seq_Some (x y : Z) : JS.seq (Some x) (Some y) = true <-> x = y.
Proof. simpl. apply Z.eqb_eq. Qed.

Context {A : Type} (key : A -> string).

Lemma insert_by_Permutation (x : A) (l : list A) :
  Permutation (JS.insert_by key x l) (x :: l).
Proof.
  induction l as [|y rest IH]; simpl; [reflexivity|].
  destruct (JS.string_gt (key y) (key x)); [reflexivity|].
  rewrite IH. apply perm_swap.
Qed.

Lemma sort_by_Permutation_acc (l acc : list A) :
  Permutation (fold_left (fun a x => JS.insert_by key x a) l acc) (acc ++ l).
Proof.
  revert acc. induction l as [|x rest IH]; intros acc; simpl.
  - by rewrite app_nil_r.
  - rewrite IH, insert_by_Permutation. simpl.
    by rewrite Permutation_middle.
Qed.

(** Sorting keeps the elements. *)
Lemma sort_by_Permutation (l : list A) : Permutation (JS.sort_by key l) l.
Proof. unfold JS.sort_by. by rewrite sort_by_Permutation_acc. Qed.

Lemma sort_by_In (x : A) (l : list A) : In x (JS.sort_by key l) <-> In x l.
Proof.
  split; apply Permutation_in; [|symmetry]; apply sort_by_Permutation.
Qed.

Lemma sort_by_length (l : list A) : length (JS.sort_by key l) = length l.
Proof. apply Permutation_length, sort_by_Permutation. Qed.

End JSFacts.

(** The first element [List.find] accepts splits the list. *)
Lemma find_first {A : Type} (p : A -> bool) (l : list A) (x : A) :
  List.find p l = Some x ->
  exists l1 l2, l = (l1 ++ x :: l2)%list /\ p x = true /\ Forall (fun y => p y = false) l1.
Proof.
  induction l as [|y rest IH]; simpl; [discriminate|].
  destruct (p y) eqn:Hy.
  - intros [= ->]. exists [], rest. by repeat split.
  - intros H. destruct (IH H) as (l1 & l2 & -> & Hx & Hl1).
    exists (y :: l1), l2. repeat split; [done|by constructor].
Qed.

Lemma find_at {A : Type} (p : A -> bool) (l1 l2 : list A) (x : A) :
  Forall (fun y => p y = false) l1 -> p x = true ->
  List.find p (l1 ++ x :: l2)%list = Some x.
Proof.
  intros Hl Hx. induction Hl as [|y rest Hy _ IH]; simpl.
  - by rewrite Hx.
  - by rewrite Hy.
Qed.

Lemma find_none_iff {A : Type} (p : A -> bool) (l : list A) :
  List.find p l = None <-> Forall (fun y => p y = false) l.
Proof.
  induction l as [|y rest IH]; simpl.
  - split; [constructor|done].
  - destruct (p y) eqn:Hy.
    + split; [discriminate|]. intros H. inversion H; congruence.
    + rewrite IH. split; [by constructor|]. intros H. by inversion H.
Qed.

(** ** The first variant's engine, as equations *)

Section V1Facts.

Import V1.

(** The auto-advance branch of the callback (lines 229-232) sits inside the
    test [nowMinutes < autoAdvanceMinutes] and asks for the opposite: it is
    never taken. *)
Lemma overdueCallback_eq env nowMinutes s st :
  overdueCallback env nowMinutes s st =
  if inWindow nowMinutes s then (true, V1_afterReminder env nowMinutes s st)
  else (false, st).
Proof.
  unfold overdueCallback, inWindow, V1_afterReminder.
  destruct (JS.ge nowMinutes (minutesOf (endTime s))); simpl; [|done].
  destruct (JS.lt nowMinutes _) eqn:Hlt; [|done].
  by rewrite (lt_not_ge _ _ Hlt).
Qed.

Lemma findOverdue_eq env nowMinutes l st :
  findOverdue env nowMinutes l st =
  match List.find (inWindow nowMinutes) l with
  | Some s => (Some s, V1_afterReminder env nowMinutes s st)
  | None => (None, st)
  end.
Proof.
  induction l as [|s rest IH]; simpl; [done|].
  rewrite overdueCallback_eq. by destruct (inWindow nowMinutes s).
Qed.

Lemma activeSchedule_fst env currentTime st :
  fst (activeSchedule env currentTime st)
  = V1_attention (minutesOfDate currentTime) (schedules st).
Proof.
  unfold activeSchedule, V1_attention.
  destruct (List.find (isRunning _) _); [done|].
  rewrite findOverdue_eq. by destruct (List.find (inWindow _) _).
Qed.

Lemma activeSchedule_snd env currentTime st :
  snd (activeSchedule env currentTime st)
  = match List.find (isRunning (minutesOfDate currentTime)) (schedules st) with
    | Some _ => st
    | None =>
        match List.find (inWindow (minutesOfDate currentTime)) (schedules st) with
        | Some s => V1_afterReminder env (minutesOfDate currentTime) s st
        | None => st
        end
    end.
Proof.
  unfold activeSchedule.
  destruct (List.find (isRunning _) _); [done|].
  rewrite findOverdue_eq. by destruct (List.find (inWindow _) _).
Qed.

Lemma afterReminder_store env nowMinutes s st :
  schedules (V1_afterReminder env nowMinutes s st) = schedules st
  /\ history (V1_afterReminder env nowMinutes s st) = history st.
Proof. unfold V1_afterReminder. by destruct (reminderDue _ _ _). Qed.

Lemma activeSchedule_store env currentTime st :
  schedules (snd (activeSchedule env currentTime st)) = schedules st
  /\ history (snd (activeSchedule env currentTime st)) = history st.
Proof.
  rewrite activeSchedule_snd.
  destruct (List.find (isRunning _) _); [done|].
  destruct (List.find (inWindow _) _); [|done].
  apply afterReminder_store.
Qed.

End V1Facts.

(** ** The second variant's engine *)

Section V2Facts.

Import V2.

Lemma currentTask_isCurrent currentTime ts c :
  currentTask currentTime ts = Some c -> isCurrent currentTime c = true.
Proof. intros H. by apply find_some in H as [_ H]. Qed.

Lemma raiseReminder_store c next st :
  tasks (raiseReminder c next st) = tasks st
  /\ history (raiseReminder c next st) = history st.
Proof. done. Qed.

(** The auto-advance test of the effect (line 1085) asks for
    [currentTime >= end + 20 min] of a task that [currentTask] chose because
    [currentTime < end + 20 min]: [handleOvertimeAdvance] is never called. *)
Lemma timingEffect_eq env currentTime st :
  timingEffect env currentTime st =
  match currentTask currentTime (tasks st) with
  | None => st
  | Some c =>
      if isActive (notificationState st) then st
      else if JS.ge (Some currentTime) (timeStringToDate (endTime c))
              && JS.lt (Some currentTime)
                   (JS.add (timeStringToDate (endTime c)) (Some MS_15_MIN))
           then raiseReminder c (nextTask (Some c) (tasks st)) st
           else st
  end.
Proof.
  unfold timingEffect.
  destruct (currentTask currentTime (tasks st)) as [c|] eqn:Hc; [|done].
  destruct (isActive (notificationState st)); [done|]. cbv zeta.
  apply currentTask_isCurrent in Hc. unfold isCurrent in Hc.
  apply andb_prop in Hc as [Hc _]. apply andb_prop in Hc as [_ Hlt].
  by rewrite (lt_not_ge _ _ Hlt).
Qed.

Lemma timingEffect_store env currentTime st :
  tasks (timingEffect env currentTime st) = tasks st
  /\ history (timingEffect env currentTime st) = history st.
Proof.
  rewrite timingEffect_eq.
  destruct (currentTask _ _); [|done].
  destruct (isActive _); [done|].
  by destruct (_ && _).
Qed.

End V2Facts.

(** ** Auto-resolve *)

(** The handler of the auto-advance itself does what its comments say: were
    it called for a block ending 10:00, it would log an overtime record with
    [actualEnd] 10:20 and store the status overtimed. *)
Example handleOvertimeAdvance_record :
  let a := Sample.v2_task "a" "A" "09:00" "10:00" in
  let st' := V2.handleOvertimeAdvance (Sample.v2_env (at_hms 10 20 7)) (Some a)
               (V2.timeStringToDate (V2.endTime a)) (Sample.v2_state [a]) in
  map (fun r => (V2.h_status r, V2.actualEnd r)) (V2.history st')
    = [(V2.h_overtimed, "10:20")]
  /\ map V2.status (V2.tasks st') = [V2.overtimed].
Proof. cbv zeta. split; vm_compute; reflexivity. Qed.

(** C1.  The claim: once [now] reaches [endTime + 20 min] with no manual
    finish, the engine appends one history record with outcome overtime and
    [actualEnd = endTime + 20 min], and sets the status to overtimed.  The
    code does not: in both variants the call that would do it is guarded by a
    test that cannot hold, so no evaluation of the engine, at any time and in
    any state, changes the history or the stored blocks.  At the input of the
    spec (block 09:00-10:00, tick at 10:20:00) the block is no longer
    attended, the history is empty and the block keeps its status. *)
Theorem C1_auto_resolve_never_fires :
  (forall env now st,
      V1.history (snd (V1.activeSchedule env now st)) = V1.history st
      /\ V1.schedules (snd (V1.activeSchedule env now st)) = V1.schedules st)
  /\ (forall env now st,
      V2.history (V2.timingEffect env now st) = V2.history st
      /\ V2.tasks (V2.timingEffect env now st) = V2.tasks st)
  /\ (let st := Sample.v1_state [Sample.v1_block "a" "A" "09:00" "10:00"] in
      V1.activeSchedule (Sample.v1_env (at_hms 10 20 0)) (at_hms 10 20 0) st = (None, st))
  /\ (let st := Sample.v2_state [Sample.v2_task "a" "A" "09:00" "10:00"] in
      V2.currentTask (at_hms 10 20 0) (V2.tasks st) = None
      /\ V2.timingEffect (Sample.v2_env (at_hms 10 20 0)) (at_hms 10 20 0) st = st).
Proof.
  split; [|split; [|split]].
  - intros env now st. by destruct (activeSchedule_store env now st) as [-> ->].
  - intros env now st. by destruct (timingEffect_store env now st) as [-> ->].
  - vm_compute. reflexivity.
  - split; vm_compute; reflexivity.
Qed.

(** ** The first variant's finish handler *)

Section V1Finish.

Import V1.

Lemma handleFinishTask_found env taskId statusOverride st task :
  finds taskId st task ->
  handleFinishTask env taskId statusOverride st =
  log "Error deleting schedule: ReferenceError: deleteDoc is not defined"
    (if addDoc_ok env then
       addHistory
         {| h_name := name task;
            scheduledStartTime := startTime task;
            scheduledEndTime := endTime task;
            finishedAt := clock env;
            h_status :=
              if from_option (String.eqb "OVERTIME") false statusOverride
                 || JS.gt (minutesOfDate (clock env))
                      (JS.add (minutesOf (endTime task)) (Some OVERTIME_GRACE_MINUTES))
              then OVERTIME else ON_TIME;
            durationMinutes :=
              JS.sub (minutesOfDate (clock env)) (minutesOf (startTime task)) |}
         taskId st
     else log "Error adding to history:" st).
Proof.
  intros (Hdb & Hu & Ht & Hfind). unfold handleFinishTask.
  rewrite Hdb, Hu, Ht, Hfind. simpl negb. cbv iota.
  replace (resolves "deleteDoc") with false by (vm_compute; reflexivity).
  reflexivity.
Qed.

(** No call of [handleFinishTask] changes the stored schedules. *)
Lemma handleFinishTask_schedules env taskId statusOverride st :
  schedules (handleFinishTask env taskId statusOverride st) = schedules st.
Proof.
  unfold handleFinishTask.
  destruct (negb (db st) || _ || _); [done|].
  destruct (List.find _ _); [|done].
  replace (resolves "deleteDoc") with false by (vm_compute; reflexivity).
  by destruct (addDoc_ok env).
Qed.

End V1Finish.

(** C9.  In the first variant, a finish that passes the guard of
    [handleFinishTask] and whose history append succeeds appends the record;
    then the removal step evaluates [deleteDoc], which no import and no
    declaration binds, so the step throws a [ReferenceError], the [catch]
    logs it, and the stored schedule set is what it was: the finished block
    is still in it.  This holds with and without the [statusOverride] of the
    auto-advance call. *)
Theorem C9_finish_cannot_remove (env : V1.Env) (taskId : string)
    (statusOverride : option string) (st : V1.State) (task : V1.Schedule) :
  finds taskId st task ->
  V1.addDoc_ok env = true ->
  let st' := V1.handleFinishTask env taskId statusOverride st in
  V1.resolves "deleteDoc" = false
  /\ (exists item, V1.history st' = (V1.history st ++ [item])%list
                   /\ V1.h_name item = V1.name task)
  /\ V1.console st' =
       (V1.console st ++
          ["Error deleting schedule: ReferenceError: deleteDoc is not defined"])%list
  /\ V1.schedules st' = V1.schedules st
  /\ In task (V1.schedules st').
Proof.
  intros Hf Hok st'. subst st'.
  rewrite (handleFinishTask_found _ _ _ _ _ Hf), Hok.
  split; [vm_compute; reflexivity|].
  split; [eexists; split; reflexivity|].
  split; [reflexivity|]. split; [reflexivity|].
  destruct Hf as (_ & _ & _ & Hfind). simpl.
  by apply find_some in Hfind as [Hin _].
Qed.

Lemma C9_witness :
  let st := Sample.v1_state [Sample.v1_block "a" "A" "09:00" "10:00"] in
  let st' := V1.handleFinishTask (Sample.v1_env (at_hms 10 5 0)) "a" None st in
  length (V1.history st') = 1%nat
  /\ V1.schedules st' = V1.schedules st
  /\ In (Sample.v1_block "a" "A" "09:00" "10:00") (V1.schedules st').
Proof.
  destruct (C9_finish_cannot_remove (Sample.v1_env (at_hms 10 5 0)) "a" None
              (Sample.v1_state [Sample.v1_block "a" "A" "09:00" "10:00"])
              (Sample.v1_block "a" "A" "09:00" "10:00"))
    as (_ & (item & Hh & _) & _ & Hs & Hin).
  - repeat split; reflexivity.
  - reflexivity.
  - cbv zeta. split; [|split]; [|exact Hs|exact Hin].
    rewrite Hh. reflexivity.
Defined.

(** ** The attention query *)

Section V1Query.

Import V1.

Lemma reminderDue_raised env nowMinutes s s' next st :
  reminderDue nowMinutes s' (raiseReminder env s next st) = false.
Proof. unfold reminderDue. simpl. by rewrite andb_false_r. Qed.

Lemma afterReminder_again env env' nowMinutes s st :
  V1_afterReminder env' nowMinutes s (V1_afterReminder env nowMinutes s st)
  = V1_afterReminder env nowMinutes s st.
Proof.
  unfold V1_afterReminder at 2 3.
  destruct (reminderDue nowMinutes s st) eqn:Hdue.
  - unfold V1_afterReminder. by rewrite reminderDue_raised.
  - unfold V1_afterReminder. by rewrite Hdue.
Qed.

End V1Query.

(** C4, as the code has it.  [activeSchedule] of the first variant returns a
    block that depends on the minute of [now] and on the schedule list alone,
    and it never touches the stored blocks, the history or the sign-in.  It
    is not free of effects: when it stops at a block whose reminder is due
    (minute equal to [endTime], no popup showing, no marker for the block) it
    stores the marker [notified-<id>] and raises the popup; that is its only
    effect.  A second call at the same [now] returns the same block and
    changes nothing more. *)
Theorem C4_attention_query :
  forall (env env' : V1.Env) (now : JS.Date) (st : V1.State),
    let r := V1.activeSchedule env now st in
    fst r = V1_attention (V1.minutesOfDate now) (V1.schedules st)
    /\ V1.schedules (snd r) = V1.schedules st
    /\ V1.history (snd r) = V1.history st
    /\ V1.db (snd r) = V1.db st
    /\ V1.userId (snd r) = V1.userId st
    /\ (snd r = st
        \/ exists s next,
             fst r = Some {| V1.task := s; V1.status := None |}
             /\ V1.reminderDue (V1.minutesOfDate now) s st = true
             /\ snd r = V1.raiseReminder env s next st)
    /\ V1.activeSchedule env' now (snd r) = r.
Proof.
  intros env env' now st r. subst r.
  assert (Hfst := activeSchedule_fst env now st).
  assert (Hsnd := activeSchedule_snd env now st).
  destruct (activeSchedule_store env now st) as [Hsch Hhist].
  split; [exact Hfst|]. split; [exact Hsch|]. split; [exact Hhist|].
  assert (Hshape : V1.db (snd (V1.activeSchedule env now st)) = V1.db st
                   /\ V1.userId (snd (V1.activeSchedule env now st)) = V1.userId st
                   /\ (snd (V1.activeSchedule env now st) = st
                       \/ exists s next,
                            fst (V1.activeSchedule env now st)
                              = Some {| V1.task := s; V1.status := None |}
                            /\ V1.reminderDue (V1.minutesOfDate now) s st = true
                            /\ snd (V1.activeSchedule env now st)
                                 = V1.raiseReminder env s next st)).
  { rewrite Hfst, Hsnd. unfold V1_attention.
    destruct (List.find (V1.isRunning _) _); [by repeat split; try left|].
    destruct (List.find (V1.inWindow _) _) as [s|]; [|by repeat split; try left].
    unfold V1_afterReminder.
    destruct (V1.reminderDue _ s st) eqn:Hdue; [|by repeat split; try left].
    repeat split. right. by eexists _, _. }
  destruct Hshape as (Hdb & Hu & Hor).
  split; [exact Hdb|]. split; [exact Hu|]. split; [exact Hor|].
  rewrite (surjective_pairing (V1.activeSchedule env' now _)).
  rewrite (surjective_pairing (V1.activeSchedule env now st)) at 3.
  f_equal.
  - by rewrite !activeSchedule_fst, Hsch.
  - rewrite (activeSchedule_snd env'), Hsch, Hsnd.
    destruct (List.find (V1.isRunning _) _); [done|].
    destruct (List.find (V1.inWindow _) _) as [s|]; [|done].
    apply afterReminder_again.
Qed.

(** C4 as stated fails: the call at 10:00:00 on a block ending 10:00 leaves a
    state that differs from the one it was given, in the notification flag
    and in the dedupe marker. *)
Lemma C4_counterexample :
  let st := Sample.v1_state [Sample.v1_block "a" "A" "09:00" "10:00"] in
  let st' := snd (V1.activeSchedule (Sample.v1_env (at_hms 10 0 0)) (at_hms 10 0 0) st) in
  V1.showNotification st = None
  /\ V1.localStorage st !! "notified-a" = None
  /\ V1.showNotification st' <> None
  /\ V1.localStorage st' !! "notified-a" = Some "true"
  /\ st' <> st.
Proof.
  cbv zeta. split; [reflexivity|]. split; [reflexivity|].
  split; [vm_compute; discriminate|]. split; [vm_compute; reflexivity|].
  intros H. apply (f_equal V1.emitted) in H. vm_compute in H. discriminate.
Qed.

(** ** Manual finish *)

Section V2Finish.

Import V2.

Lemma updateTaskStatus_history env taskId newStatus st :
  history (updateTaskStatus env taskId newStatus st) = history st.
Proof. unfold updateTaskStatus. by destruct (setDoc_ok env). Qed.

Lemma logActivityToHistory_tasks env task actualEndTime outcome st :
  tasks (logActivityToHistory env task actualEndTime outcome st) = tasks st.
Proof. unfold logActivityToHistory. by destruct (addDoc_ok env). Qed.

Lemma logActivityToHistory_notification env task actualEndTime outcome st :
  notificationState (logActivityToHistory env task actualEndTime outcome st)
  = notificationState st.
Proof. unfold logActivityToHistory. by destruct (addDoc_ok env). Qed.

Lemma updateTaskStatus_notification env taskId newStatus st :
  notificationState (updateTaskStatus env taskId newStatus st) = notificationState st.
Proof. unfold updateTaskStatus. by destruct (setDoc_ok env). Qed.

(** The record a manual finish of [c] logs. *)
Lemma handleFinished_history env c st :
  addDoc_ok env = true ->
  history (handleFinished env (Some c) st) =
  (history st ++
     [ {| h_activity := activity c;
          scheduledStart := startTime c;
          scheduledEnd := endTime c;
          actualEnd := toLocaleTimeString (Some (clock env));
          h_status :=
            if JS.gt (Some (clock env))
                 (JS.add (timeStringToDate (endTime c)) (Some MS_15_MIN))
            then h_overtimed else on_time;
          date := today env;
          h_userId := userId st |} ])%list.
Proof.
  intros Hok. unfold handleFinished, finishWrites.
  rewrite updateTaskStatus_history. unfold logActivityToHistory.
  by rewrite Hok.
Qed.

End V2Finish.

(** C2, as the code has it.  A manual finish that reaches the history store
    appends one record.  In the second variant the outcome is overtime
    exactly when the instant of the finish is strictly later than
    [endTime + 15 min], to the millisecond, and [actualEnd] is the wall-clock
    time of that instant.  In the first variant the record holds the instant
    itself in [finishedAt], and the outcome is decided on whole minutes: it
    is overtime exactly when the minute of the finish is strictly greater than
    the minute [endTime + 15].  For a block ending 10:00, a finish at
    10:14:59 is on time in both variants; a finish at 10:15:01 is overtime in
    the second variant and on time in the first, where overtime starts at
    10:16:00. *)
Theorem C2_finish_outcome
    (env1 : V1.Env) (taskId : string) (st1 : V1.State) (task : V1.Schedule) (e1 : Z)
    (env2 : V2.Env) (c : V2.Task) (st2 : V2.State) (e2 : Z) :
  finds taskId st1 task ->
  V1.addDoc_ok env1 = true ->
  V1.minutesOf (V1.endTime task) = Some e1 ->
  V2.addDoc_ok env2 = true ->
  V2.timeStringToDate (V2.endTime c) = Some e2 ->
  (exists item,
      V1.history (V1.handleFinishTask env1 taskId None st1)
        = (V1.history st1 ++ [item])%list
      /\ V1.finishedAt item = V1.clock env1
      /\ (V1.h_status item = V1.OVERTIME
          <-> e1 + 15 < JS.getHours (V1.clock env1) * 60 + JS.getMinutes (V1.clock env1)))
  /\ (exists r,
      V2.history (V2.handleFinished env2 (Some c) st2)
        = (V2.history st2 ++ [r])%list
      /\ V2.actualEnd r = V2.toLocaleTimeString (Some (V2.clock env2))
      /\ (V2.h_status r = V2.h_overtimed <-> e2 + 15 * 60000 < V2.clock env2))
  /\ (let finish1 t :=
        map V1.h_status
          (V1.history (V1.handleFinishTask (Sample.v1_env t) "a" None
             (Sample.v1_state [Sample.v1_block "a" "A" "09:00" "10:00"]))) in
      let finish2 t :=
        map (fun r => (V2.h_status r, V2.actualEnd r))
          (V2.history (V2.handleFinished (Sample.v2_env t)
             (Some (Sample.v2_task "a" "A" "09:00" "10:00"))
             (Sample.v2_state [Sample.v2_task "a" "A" "09:00" "10:00"]))) in
      finish2 (at_hms 10 14 59) = [(V2.on_time, "10:14")]
      /\ finish2 (at_hms 10 15 1) = [(V2.h_overtimed, "10:15")]
      /\ finish1 (at_hms 10 14 59) = [V1.ON_TIME]
      /\ finish1 (at_hms 10 15 1) = [V1.ON_TIME]
      /\ finish1 (at_hms 10 16 0) = [V1.OVERTIME]).
Proof.
  intros Hf Hok1 He1 Hok2 He2. split; [|split].
  - rewrite (handleFinishTask_found _ _ _ _ _ Hf), Hok1. simpl.
    eexists. split; [reflexivity|]. split; [reflexivity|].
    cbn [V1.h_status from_option orb].
    rewrite He1. unfold V1.minutesOfDate, V1.OVERTIME_GRACE_MINUTES.
    cbn [JS.add]. rewrite <- gt_Some. unfold JS.gt.
    match goal with |- context [?a >? ?b] => destruct (a >? b) end;
      split; congruence.
  - rewrite (handleFinished_history _ _ _ Hok2).
    eexists. split; [reflexivity|]. split; [reflexivity|].
    cbn [V2.h_status].
    rewrite He2. unfold V2.MS_15_MIN.
    cbn [JS.add]. rewrite <- gt_Some. unfold JS.gt.
    match goal with |- context [?a >? ?b] => destruct (a >? b) end;
      split; congruence.
  - cbv zeta. repeat split; vm_compute; reflexivity.
Qed.

Lemma C2_witness :
  (exists item,
      V1.history (V1.handleFinishTask (Sample.v1_env (at_hms 10 16 0)) "a" None
                    (Sample.v1_state [Sample.v1_block "a" "A" "09:00" "10:00"]))
        = [item]
      /\ V1.finishedAt item = at_hms 10 16 0
      /\ V1.h_status item = V1.OVERTIME)
  /\ (exists r,
      V2.history (V2.handleFinished (Sample.v2_env (at_hms 10 15 1))
                    (Some (Sample.v2_task "a" "A" "09:00" "10:00"))
                    (Sample.v2_state [Sample.v2_task "a" "A" "09:00" "10:00"]))
        = [r]
      /\ V2.actualEnd r = "10:15"
      /\ V2.h_status r = V2.h_overtimed).
Proof.
  destruct (C2_finish_outcome
              (Sample.v1_env (at_hms 10 16 0)) "a"
              (Sample.v1_state [Sample.v1_block "a" "A" "09:00" "10:00"])
              (Sample.v1_block "a" "A" "09:00" "10:00") 600
              (Sample.v2_env (at_hms 10 15 1))
              (Sample.v2_task "a" "A" "09:00" "10:00")
              (Sample.v2_state [Sample.v2_task "a" "A" "09:00" "10:00"])
              (at_hms 10 0 0))
    as ((item & Hh1 & Hf1 & Ho1) & (r & Hh2 & Ha2 & Ho2) & _).
  - repeat split; reflexivity.
  - reflexivity.
  - reflexivity.
  - reflexivity.
  - reflexivity.
  - split.
    + exists item. split; [exact Hh1|]. split; [exact Hf1|].
      apply Ho1. vm_compute. reflexivity.
    + exists r. split; [exact Hh2|]. split; [exact Ha2|].
      apply Ho2. vm_compute. reflexivity.
Defined.

(** C2 as stated fails in the first variant: a finish at 10:15:01 is strictly
    later than 10:00 plus 15 minutes, and the record it logs is on time. *)
Lemma C2_counterexample :
  let task := Sample.v1_block "a" "A" "09:00" "10:00" in
  let now := at_hms 10 15 1 in
  at_hms 10 0 0 + 15 * 60000 < now
  /\ map V1.h_status
       (V1.history (V1.handleFinishTask (Sample.v1_env now) "a" None
                      (Sample.v1_state [task])))
     = [V1.ON_TIME].
Proof. cbv zeta. split; [vm_compute; reflexivity|vm_compute; reflexivity]. Qed.

(** ** Status after a finish *)

Section V2Status.

Import V2.

Lemma updateTaskStatus_tasks env taskId newStatus st :
  setDoc_ok env = true ->
  tasks (updateTaskStatus env taskId newStatus st) =
  JS.sort_by startTime
    (List.map (fun t => if String.eqb (id t) taskId then withStatus newStatus t else t)
              (tasks st)).
Proof. intros Hok. unfold updateTaskStatus. by rewrite Hok. Qed.

Lemma handleFinished_tasks env c st :
  setDoc_ok env = true ->
  tasks (handleFinished env (Some c) st) =
  JS.sort_by startTime
    (List.map (fun t => if String.eqb (id t) (id c) then withStatus completed t else t)
              (tasks st)).
Proof.
  intros Hok. unfold handleFinished, finishWrites.
  by rewrite (updateTaskStatus_tasks _ _ _ _ Hok), logActivityToHistory_tasks.
Qed.

(** A finish whose status write succeeds stores the finished task with
    status completed. *)
Lemma handleFinished_archives env c st :
  setDoc_ok env = true ->
  In c (tasks st) ->
  In (withStatus completed c) (tasks (handleFinished env (Some c) st)).
Proof.
  intros Hok Hin. rewrite (handleFinished_tasks _ _ _ Hok).
  apply sort_by_In, in_map_iff. exists c. split; [|done].
  by rewrite String.eqb_refl.
Qed.

End V2Status.

(** C3, as the code has it.  In the second variant a manual finish whose
    status write succeeds sets the status of the finished block to completed,
    whatever the instant of the finish and so whether the history record says
    on time or overtime.  The write keeps every block: the stored array has
    the same length, every other block is stored unchanged, and the finished
    block is stored with its own id, activity and times and the status
    completed. *)
Theorem C3_finish_archives (env : V2.Env) (c : V2.Task) (st : V2.State) :
  V2.setDoc_ok env = true ->
  In c (V2.tasks st) ->
  let st' := V2.handleFinished env (Some c) st in
  length (V2.tasks st') = length (V2.tasks st)
  /\ In (V2.withStatus V2.completed c) (V2.tasks st')
  /\ V2.status (V2.withStatus V2.completed c) = V2.completed
  /\ (forall t, In t (V2.tasks st) -> V2.id t <> V2.id c -> In t (V2.tasks st'))
  /\ (forall t, In t (V2.tasks st) -> V2.id t = V2.id c ->
                In (V2.withStatus V2.completed t) (V2.tasks st')).
Proof.
  intros Hok Hin st'. subst st'. rewrite (handleFinished_tasks _ _ _ Hok).
  split; [by rewrite sort_by_length, length_map|].
  assert (Hsame : forall t, In t (V2.tasks st) -> V2.id t = V2.id c ->
            In (V2.withStatus V2.completed t)
               (JS.sort_by V2.startTime
                  (map (fun t0 => if String.eqb (V2.id t0) (V2.id c)
                                  then V2.withStatus V2.completed t0 else t0)
                       (V2.tasks st)))).
  { intros t Ht Hid. apply sort_by_In, in_map_iff. exists t.
    split; [|done]. by rewrite Hid, String.eqb_refl. }
  split; [by apply Hsame|]. split; [done|]. split; [|exact Hsame].
  intros t Ht Hid. apply sort_by_In, in_map_iff. exists t.
  split; [|done]. apply String.eqb_neq in Hid. by rewrite Hid.
Qed.

Lemma C3_witness :
  let c := Sample.v2_task "a" "A" "09:00" "10:00" in
  let st' := V2.handleFinished (Sample.v2_env (at_hms 10 5 0)) (Some c)
               (Sample.v2_state [c]) in
  length (V2.tasks st') = 1%nat
  /\ In (V2.withStatus V2.completed c) (V2.tasks st').
Proof.
  destruct (C3_finish_archives (Sample.v2_env (at_hms 10 5 0))
              (Sample.v2_task "a" "A" "09:00" "10:00")
              (Sample.v2_state [Sample.v2_task "a" "A" "09:00" "10:00"]))
    as (Hlen & Hin & _).
  - reflexivity.
  - left. reflexivity.
  - cbv zeta. split; [exact Hlen|exact Hin].
Defined.

(** C3 as stated fails: a manual finish at 10:16:00 of a block ending 10:00
    is classified overtime in the history and stored with status completed,
    not overtimed. *)
Lemma C3_counterexample :
  let c := Sample.v2_task "a" "A" "09:00" "10:00" in
  let st' := V2.handleFinished (Sample.v2_env (at_hms 10 16 0)) (Some c)
               (Sample.v2_state [c]) in
  V2.currentTask (at_hms 10 16 0) [c] = Some c
  /\ map V2.h_status (V2.history st') = [V2.h_overtimed]
  /\ map V2.status (V2.tasks st') = [V2.completed].
Proof. cbv zeta. repeat split; vm_compute; reflexivity. Qed.

(** ** Which block is attended *)

Lemma string_gt_irrefl (s : string) : JS.string_gt s s = false.
Proof.
  unfold JS.string_gt, String.ltb.
  pose proof (String.compare_antisym s s) as H.
  by destruct (String.compare s s).
Qed.

(** In a list in key order, the first element a test accepts has the least
    key among the elements the test accepts. *)
Lemma find_least_key {A : Type} (key : A -> string) (p : A -> bool) (l : list A) (x : A) :
  inKeyOrder key l ->
  List.find p l = Some x ->
  forall y, In y l -> p y = true -> JS.string_gt (key x) (key y) = false.
Proof.
  unfold inKeyOrder. induction 1 as [|a rest Hsorted IH Hall]; simpl; [discriminate|].
  destruct (p a) eqn:Hpa.
  - intros [= <-] y [<-|Hy] _; [apply string_gt_irrefl|].
    by apply (proj1 (List.Forall_forall _ _) Hall).
  - intros Hfind y [<-|Hy] Hpy; [congruence|]. by apply IH.
Qed.

Lemma find_filter {A : Type} (p q : A -> bool) (l : list A) :
  (forall x, p x = true -> q x = true) ->
  List.find p (List.filter q l) = List.find p l.
Proof.
  intros Hpq. induction l as [|a rest IH]; simpl; [done|].
  destruct (q a) eqn:Hqa; simpl.
  - by rewrite IH.
  - destruct (p a) eqn:Hpa; [|exact IH].
    apply Hpq in Hpa. congruence.
Qed.

(** [currentTask] of the second variant is the first task of the list that
    its test accepts: the filter to [activeTasks] changes nothing, for the
    test asks for a non-terminal status itself. *)
Lemma currentTask_find currentTime ts :
  V2.currentTask currentTime ts = List.find (V2.isCurrent currentTime) ts.
Proof.
  unfold V2.currentTask, V2.activeTasks. apply find_filter.
  intros x Hx. unfold V2.isCurrent in Hx. by apply andb_prop in Hx as [_ Hx].
Qed.

(** C5, as the code has it.  When no block is running, the first variant
    returns the first block of the schedule list whose window contains
    [now] ([endTime <= now < endTime + 20] in minutes).  The list is in the
    order of [startTime], so the block returned is the one that starts
    earliest among the blocks in their window, not the one that ends
    earliest.  The second variant returns the first task of the list that is
    not finished and has [startTime <= now < endTime + 20 min], again the
    earliest start.  With B (08:00-09:00) and C (08:30-09:30) at 09:40, B is
    past its 20 minutes and both variants return C. *)
Theorem C5_first_in_window (env : V1.Env) (now : JS.Date) (st : V1.State)
    (ts : list V2.Task) :
  List.find (V1.isRunning (V1.minutesOfDate now)) (V1.schedules st) = None ->
  inKeyOrder V1.startTime (V1.schedules st) ->
  inKeyOrder V2.startTime ts ->
  fst (V1.activeSchedule env now st)
    = option_map (fun s => {| V1.task := s; V1.status := None |})
        (List.find (V1.inWindow (V1.minutesOfDate now)) (V1.schedules st))
  /\ (forall s,
        List.find (V1.inWindow (V1.minutesOfDate now)) (V1.schedules st) = Some s ->
        In s (V1.schedules st)
        /\ V1.inWindow (V1.minutesOfDate now) s = true
        /\ forall x, In x (V1.schedules st) ->
                     V1.inWindow (V1.minutesOfDate now) x = true ->
                     JS.string_gt (V1.startTime s) (V1.startTime x) = false)
  /\ (forall t,
        V2.currentTask now ts = Some t ->
        In t ts
        /\ V2.isCurrent now t = true
        /\ forall x, In x ts -> V2.isCurrent now x = true ->
                     JS.string_gt (V2.startTime t) (V2.startTime x) = false)
  /\ (let b1 := Sample.v1_block "b" "B" "08:00" "09:00" in
      let c1 := Sample.v1_block "c" "C" "08:30" "09:30" in
      let b2 := Sample.v2_task "b" "B" "08:00" "09:00" in
      let c2 := Sample.v2_task "c" "C" "08:30" "09:30" in
      fst (V1.activeSchedule (Sample.v1_env (at_hms 9 40 0)) (at_hms 9 40 0)
             (Sample.v1_state [b1; c1]))
        = Some {| V1.task := c1; V1.status := None |}
      /\ V2.currentTask (at_hms 9 40 0) [b2; c2] = Some c2).
Proof.
  intros Hnorun Hord1 Hord2. split; [|split; [|split]].
  - rewrite activeSchedule_fst. unfold V1_attention. rewrite Hnorun.
    by destruct (List.find (V1.inWindow _) _).
  - intros s Hs. pose proof (find_some _ _ Hs) as [Hin Hw].
    split; [done|]. split; [done|].
    by apply (find_least_key V1.startTime _ _ _ Hord1 Hs).
  - intros t Ht. rewrite currentTask_find in Ht.
    pose proof (find_some _ _ Ht) as [Hin Hc].
    split; [done|]. split; [done|].
    by apply (find_least_key V2.startTime _ _ _ Hord2 Ht).
  - cbv zeta. split; vm_compute; reflexivity.
Qed.

Lemma C5_witness :
  let b1 := Sample.v1_block "b" "B" "08:00" "09:30" in
  let c1 := Sample.v1_block "c" "C" "08:10" "09:25" in
  fst (V1.activeSchedule (Sample.v1_env (at_hms 9 40 0)) (at_hms 9 40 0)
         (Sample.v1_state [b1; c1]))
  = Some {| V1.task := b1; V1.status := None |}.
Proof.
  cbv zeta.
  destruct (C5_first_in_window (Sample.v1_env (at_hms 9 40 0)) (at_hms 9 40 0)
              (Sample.v1_state [Sample.v1_block "b" "B" "08:00" "09:30";
                                Sample.v1_block "c" "C" "08:10" "09:25"])
              [Sample.v2_task "b" "B" "08:00" "09:30";
               Sample.v2_task "c" "C" "08:10" "09:25"])
    as (H & _).
  - reflexivity.
  - repeat constructor.
  - repeat constructor.
  - rewrite H. reflexivity.
Defined.

(** C5 as stated fails.  At 09:40 the blocks 08:00-09:30 and 08:10-09:25 are
    both past their end and within their 20 minutes, none is running, and
    both variants return the first, which ends later than the second.  In the
    example of the spec, B (ending 09:00) and C (ending 09:30) at 09:40, both
    variants return C. *)
Lemma C5_counterexample :
  (let b1 := Sample.v1_block "b" "B" "08:00" "09:30" in
   let c1 := Sample.v1_block "c" "C" "08:10" "09:25" in
   let b2 := Sample.v2_task "b" "B" "08:00" "09:30" in
   let c2 := Sample.v2_task "c" "C" "08:10" "09:25" in
   let now := at_hms 9 40 0 in
   V1.inWindow (V1.minutesOfDate now) b1 = true
   /\ V1.inWindow (V1.minutesOfDate now) c1 = true
   /\ List.find (V1.isRunning (V1.minutesOfDate now)) [b1; c1] = None
   /\ JS.lt (V1.minutesOf (V1.endTime c1)) (V1.minutesOf (V1.endTime b1)) = true
   /\ fst (V1.activeSchedule (Sample.v1_env now) now (Sample.v1_state [b1; c1]))
        = Some {| V1.task := b1; V1.status := None |}
   /\ V2.currentTask now [b2; c2] = Some b2)
  /\ (let b1 := Sample.v1_block "b" "B" "08:00" "09:00" in
      let c1 := Sample.v1_block "c" "C" "08:30" "09:30" in
      let b2 := Sample.v2_task "b" "B" "08:00" "09:00" in
      let c2 := Sample.v2_task "c" "C" "08:30" "09:30" in
      let now := at_hms 9 40 0 in
      option_map V1.task
        (fst (V1.activeSchedule (Sample.v1_env now) now (Sample.v1_state [b1; c1])))
        <> Some b1
      /\ V2.currentTask now [b2; c2] <> Some b2).
Proof.
  cbv zeta. split.
  - repeat split; vm_compute; reflexivity.
  - split; vm_compute; discriminate.
Qed.

(** C6, as the code has it.  In the first variant a running block takes
    priority: when some block is running, the block returned is the first
    running block of the list, marked RUNNING, whatever blocks are past their
    end; it is A when A is the only running block.  The second variant has
    one test for running and overdue blocks alike, and returns the first task
    of the list that is not finished and has
    [startTime <= now < endTime + 20 min]: an overdue task that starts
    earlier is returned ahead of a running one: [currentTask] is the [find]
    of that one test over the stored list, so a task that passes the test
    and has no task passing it before it in the list is the one returned,
    running or not.  In both variants the result is empty when no block
    passes the tests. *)
Theorem C6_priority (env : V1.Env) (now : JS.Date) (st : V1.State) (a : V1.Schedule) :
  In a (V1.schedules st) ->
  V1.isRunning (V1.minutesOfDate now) a = true ->
  (exists r,
      fst (V1.activeSchedule env now st)
        = Some {| V1.task := r; V1.status := Some V1.RUNNING |}
      /\ List.find (V1.isRunning (V1.minutesOfDate now)) (V1.schedules st) = Some r
      /\ In r (V1.schedules st)
      /\ V1.isRunning (V1.minutesOfDate now) r = true
      /\ ((forall x, In x (V1.schedules st) ->
                     V1.isRunning (V1.minutesOfDate now) x = true -> x = a) ->
          r = a))
  /\ (forall st0 : V1.State,
        (forall s, In s (V1.schedules st0) ->
                   V1.isRunning (V1.minutesOfDate now) s = false
                   /\ V1.inWindow (V1.minutesOfDate now) s = false) ->
        fst (V1.activeSchedule env now st0) = None)
  /\ (forall ts : list V2.Task,
        V2.currentTask now ts = List.find (V2.isCurrent now) ts)
  /\ (forall t : V2.Task,
        V2.isCurrent now t
        = JS.ge (Some now) (V2.timeStringToDate (V2.startTime t))
          && JS.lt (Some now)
               (JS.add (V2.timeStringToDate (V2.endTime t)) (Some V2.MS_20_MIN))
          && negb (V2.terminal t))
  /\ (forall (l1 l2 : list V2.Task) (b : V2.Task),
        Forall (fun x => V2.isCurrent now x = false) l1 ->
        V2.isCurrent now b = true ->
        V2.currentTask now (l1 ++ b :: l2)%list = Some b)
  /\ (forall (ts : list V2.Task) (t : V2.Task),
        V2.currentTask now ts = Some t ->
        exists l1 l2,
          ts = (l1 ++ t :: l2)%list
          /\ V2.isCurrent now t = true
          /\ Forall (fun x => V2.isCurrent now x = false) l1)
  /\ (forall ts : list V2.Task,
        (forall t, In t ts -> V2.isCurrent now t = false) ->
        V2.currentTask now ts = None).
Proof.
  intros Hin Hrun. split; [|split; [|split; [|split; [|split; [|split]]]]].
  - destruct (List.find (V1.isRunning (V1.minutesOfDate now)) (V1.schedules st))
      as [r|] eqn:Hfind.
    + exists r. rewrite activeSchedule_fst. unfold V1_attention. rewrite Hfind.
      pose proof (find_some _ _ Hfind) as [Hr1 Hr2].
      repeat split; try done. intros Honly. by apply Honly.
    + exfalso. pose proof (find_none _ _ Hfind a Hin). congruence.
  - intros st0 Hnone. rewrite activeSchedule_fst. unfold V1_attention.
    destruct (List.find (V1.isRunning _) _) as [r|] eqn:Hr.
    { apply find_some in Hr as [Hr1 Hr2]. destruct (Hnone r Hr1). congruence. }
    destruct (List.find (V1.inWindow _) _) as [s|] eqn:Hs; [|done].
    apply find_some in Hs as [Hs1 Hs2]. destruct (Hnone s Hs1). congruence.
  - intros ts. apply currentTask_find.
  - reflexivity.
  - intros l1 l2 b Hl1 Hb. rewrite currentTask_find. by apply find_at.
  - intros ts t Ht. rewrite currentTask_find in Ht. by apply find_first.
  - intros ts Hnone. rewrite currentTask_find.
    apply find_none_iff, List.Forall_forall. exact Hnone.
Qed.

Lemma C6_witness :
  let a := Sample.v1_block "a" "A" "09:30" "10:30" in
  let b := Sample.v1_block "b" "B" "08:00" "09:25" in
  exists r,
    fst (V1.activeSchedule (Sample.v1_env (at_hms 9 40 0)) (at_hms 9 40 0)
           (Sample.v1_state [b; a]))
      = Some {| V1.task := r; V1.status := Some V1.RUNNING |}
    /\ r = a.
Proof.
  cbv zeta.
  destruct (C6_priority (Sample.v1_env (at_hms 9 40 0)) (at_hms 9 40 0)
              (Sample.v1_state [Sample.v1_block "b" "B" "08:00" "09:25";
                                Sample.v1_block "a" "A" "09:30" "10:30"])
              (Sample.v1_block "a" "A" "09:30" "10:30"))
    as ((r & Hr & Hfind & _) & _).
  - right. left. reflexivity.
  - reflexivity.
  - exists r. split; [exact Hr|].
    assert (H : Some r = Some (Sample.v1_block "a" "A" "09:30" "10:30"))
      by (rewrite <- Hfind; vm_compute; reflexivity).
    by injection H.
Defined.

(** C6 as stated fails in the second variant.  At 09:40 the task A
    (09:30-10:30) is running and the task B (08:00-09:25) is overdue, past
    its end by 15 minutes and not yet by 20; [currentTask] is B. *)
Lemma C6_counterexample :
  let a := Sample.v2_task "a" "A" "09:30" "10:30" in
  let b := Sample.v2_task "b" "B" "08:00" "09:25" in
  let now := at_hms 9 40 0 in
  JS.ge (Some now) (V2.timeStringToDate (V2.startTime a))
    && JS.lt (Some now) (V2.timeStringToDate (V2.endTime a)) = true
  /\ JS.ge (Some now) (V2.timeStringToDate (V2.endTime b))
       && JS.lt (Some now)
            (JS.add (V2.timeStringToDate (V2.endTime b)) (Some V2.MS_20_MIN)) = true
  /\ inKeyOrder V2.startTime [b; a]
  /\ V2.currentTask now [b; a] = Some b
  /\ V2.currentTask now [b; a] <> Some a.
Proof.
  cbv zeta. split; [vm_compute; reflexivity|]. split; [vm_compute; reflexivity|].
  split; [repeat constructor|]. split; [vm_compute; reflexivity|].
  vm_compute. discriminate.
Qed.

(** ** Creating a block *)

(** C8, as the code has it.  The form of the second variant parses both
    times and rejects the submission when the end is not strictly later than
    the start: the stored tasks are left as they were and the form shows an
    error.  When the end is strictly later, the fields are filled and the
    write succeeds, the new task is stored.  The form of the first variant
    has no such test: a submission that passes the sign-in guard and whose
    write succeeds stores the block whatever its times are. *)
Theorem C8_submit_validation (env : V2.Env) (activity_ s e : string)
    (st : V2.State) (vs ve : Z) :
  V2.timeStringToDate s = Some vs ->
  V2.timeStringToDate e = Some ve ->
  ve <= vs ->
  let st' := V2.handleSubmit env activity_ s e st in
  V2.tasks st' = V2.tasks st
  /\ V2.history st' = V2.history st
  /\ (V2.formError st' = "End time must be after start time."
      \/ V2.formError st' = "Please fill in all fields.")
  /\ (forall e' ve',
        V2.timeStringToDate e' = Some ve' -> vs < ve' ->
        V2.truthy activity_ = true -> V2.truthy s = true -> V2.truthy e' = true ->
        V2.setDoc_ok env = true ->
        let st2 := V2.handleSubmit env activity_ s e' st in
        In {| V2.id := V2.newId env; V2.activity := activity_;
              V2.startTime := s; V2.endTime := e'; V2.status := V2.pending |}
           (V2.tasks st2)
        /\ length (V2.tasks st2) = S (length (V2.tasks st)))
  /\ (forall (env1 : V1.Env) (newId : string) (form : V1.ScheduleForm) (st1 : V1.State),
        V1.db st1 = true ->
        from_option V1.truthy false (V1.userId st1) = true ->
        V1.addDoc_ok env1 = true ->
        In {| V1.id := newId; V1.name := V1.f_name form;
              V1.startTime := V1.f_startTime form; V1.endTime := V1.f_endTime form |}
           (V1.schedules (V1.handleScheduleSubmit env1 newId form st1))).
Proof.
  intros Hs He Hle st'. subst st'.
  assert (Hrej : JS.le (V2.timeStringToDate e) (V2.timeStringToDate s) = true)
    by (rewrite Hs, He; by apply le_Some).
  split; [|split; [|split; [|split]]].
  - unfold V2.handleSubmit. destruct (_ || _ || _); [done|]. by rewrite Hrej.
  - unfold V2.handleSubmit. destruct (_ || _ || _); [done|]. by rewrite Hrej.
  - unfold V2.handleSubmit. destruct (_ || _ || _); [by right|].
    rewrite Hrej. by left.
  - intros e' ve' He' Hlt Ha Hts Hte Hok. unfold V2.handleSubmit.
    rewrite Ha, Hts, Hte, He', Hs, Hok. simpl negb. simpl orb. cbv iota.
    replace (JS.le (Some ve') (Some vs)) with false
      by (symmetry; apply Z.leb_gt; lia).
    unfold V2.deliver. simpl V2.tasks. split.
    + apply sort_by_In, sort_by_In, in_or_app. right. by left.
    + rewrite !sort_by_length, length_app. simpl. lia.
  - intros env1 newId form st1 Hdb Hu Hok. unfold V1.handleScheduleSubmit.
    rewrite Hdb, Hu, Hok. simpl.
    apply sort_by_In, in_or_app. right. by left.
Qed.

Lemma C8_witness :
  let st := Sample.v2_state [Sample.v2_task "a" "A" "09:00" "10:00"] in
  let st' := V2.handleSubmit (Sample.v2_env (at_hms 8 0 0)) "B" "10:00" "09:00" st in
  V2.tasks st' = V2.tasks st
  /\ V2.formError st' = "End time must be after start time.".
Proof.
  destruct (C8_submit_validation (Sample.v2_env (at_hms 8 0 0)) "B" "10:00" "09:00"
              (Sample.v2_state [Sample.v2_task "a" "A" "09:00" "10:00"])
              (at_hms 10 0 0) (at_hms 9 0 0))
    as (Ht & _).
  - reflexivity.
  - reflexivity.
  - vm_compute. discriminate.
  - cbv zeta. split; [exact Ht|]. vm_compute. reflexivity.
Defined.

(** C8 as stated fails in the first variant: a submission from 10:00 to 09:00
    is stored. *)
Lemma C8_counterexample :
  let form := {| V1.f_name := "B"; V1.f_startTime := "10:00"; V1.f_endTime := "09:00" |} in
  JS.le (V1.minutesOf (V1.f_endTime form)) (V1.minutesOf (V1.f_startTime form)) = true
  /\ V1.schedules
       (V1.handleScheduleSubmit (Sample.v1_env (at_hms 8 0 0)) "doc1" form
          (Sample.v1_state []))
     = [Sample.v1_block "doc1" "B" "10:00" "09:00"].
Proof. cbv zeta. split; vm_compute; reflexivity. Qed.

(** ** Acknowledging the reminder *)

Section V2Acknowledge.

Import V2.

Lemma currentTask_In currentTime ts c :
  currentTask currentTime ts = Some c -> In c ts.
Proof.
  rewrite currentTask_find. intros H. by apply find_some in H as [H _].
Qed.


Lemma timingEffect_userId env currentTime st :
  userId (timingEffect env currentTime st) = userId st.
Proof.
  rewrite timingEffect_eq. destruct (currentTask _ _); [|done].
  destruct (isActive _); [done|]. by destruct (_ && _).
Qed.

(** The writes read the tasks, the history and the user id only. *)
Lemma finishWrites_store env current st1 st2 :
  tasks st1 = tasks st2 -> history st1 = history st2 -> userId st1 = userId st2 ->
  tasks (finishWrites env current st1) = tasks (finishWrites env current st2)
  /\ history (finishWrites env current st1) = history (finishWrites env current st2).
Proof.
  intros Ht Hh Hu. unfold finishWrites. destruct current as [c|]; [|done].
  unfold updateTaskStatus, logActivityToHistory, deliver.
  destruct (setDoc_ok env), (addDoc_ok env); simpl; by rewrite ?Ht, ?Hh, ?Hu.
Qed.

Lemma finishWrites_popup env current st :
  notificationState (finishWrites env current st) = notificationState st
  /\ emitted (finishWrites env current st) = emitted st.
Proof.
  unfold finishWrites. destruct current as [c|]; [|done].
  unfold updateTaskStatus, logActivityToHistory.
  by destruct (setDoc_ok env), (addDoc_ok env).
Qed.

(** The history and the tasks a click leaves are those the handler writes:
    the renders in between change neither. *)
Lemma acknowledge_store env e currentTime st :
  tasks (acknowledge env e currentTime st)
    = tasks (handleFinished e (currentTask currentTime (tasks st)) st)
  /\ history (acknowledge env e currentTime st)
    = history (handleFinished e (currentTask currentTime (tasks st)) st).
Proof.
  unfold acknowledge, handleFinished.
  set (current := currentTask currentTime (tasks st)).
  set (closed := set_notification idle st).
  set (rendered := if isActive (notificationState st)
                   then timingEffect env currentTime closed else closed).
  assert (Hr : tasks rendered = tasks closed /\ history rendered = history closed
               /\ userId rendered = userId closed).
  { subst rendered. destruct (isActive (notificationState st)); [|done].
    destruct (timingEffect_store env currentTime closed) as [-> ->].
    by rewrite timingEffect_userId. }
  destruct Hr as (Ht & Hh & Hu).
  destruct (finishWrites_store e current rendered closed Ht Hh Hu) as [Hwt Hwh].
  destruct current as [c|]; [|done].
  destruct (setDoc_ok e); [|done].
  by destruct (timingEffect_store env currentTime (finishWrites e (Some c) rendered))
    as [-> ->].
Qed.

End V2Acknowledge.




(** ** The reminder *)

Section V1Reminder.

Import V1.

Lemma activeSchedule_emitted env currentTime st :
  emitted (snd (activeSchedule env currentTime st))
  = (emitted st ++ V1_reminderFor (minutesOfDate currentTime) st)%list.
Proof.
  rewrite activeSchedule_snd. unfold V1_reminderFor.
  destruct (List.find (isRunning _) _); [by rewrite app_nil_r|].
  destruct (List.find (inWindow _) _) as [s|]; [|by rewrite app_nil_r].
  unfold V1_afterReminder.
  destruct (reminderDue _ s st); [done|by rewrite app_nil_r].
Qed.

Lemma reminderFor_cases nowMinutes st j :
  In j (V1_reminderFor nowMinutes st) ->
  exists s, List.find (isRunning nowMinutes) (schedules st) = None
            /\ List.find (inWindow nowMinutes) (schedules st) = Some s
            /\ reminderDue nowMinutes s st = true
            /\ j = id s.
Proof.
  unfold V1_reminderFor.
  destruct (List.find (isRunning _) _); [done|].
  destruct (List.find (inWindow _) _) as [s|]; [|done].
  destruct (reminderDue _ s st) eqn:Hdue; [|done].
  intros [<-|[]]. by exists s.
Qed.

(** The emission stores the marker of the block. *)
Lemma activeSchedule_sets_marker env currentTime st j :
  In j (V1_reminderFor (minutesOfDate currentTime) st) ->
  getItem_truthy (localStorage (snd (activeSchedule env currentTime st)))
                 (notifiedKey j) = true.
Proof.
  intros Hj. apply reminderFor_cases in Hj as (s & Hrun & Hwin & Hdue & ->).
  rewrite activeSchedule_snd, Hrun, Hwin. unfold V1_afterReminder. rewrite Hdue.
  unfold getItem_truthy. simpl. by rewrite lookup_insert_eq.
Qed.

(** With the marker of [i] stored, an evaluation keeps the marker and raises
    no reminder for [i]. *)
Lemma activeSchedule_marked env currentTime st i :
  getItem_truthy (localStorage st) (notifiedKey i) = true ->
  getItem_truthy (localStorage (snd (activeSchedule env currentTime st)))
                 (notifiedKey i) = true
  /\ count_occ string_dec (emitted (snd (activeSchedule env currentTime st))) i
     = count_occ string_dec (emitted st) i.
Proof.
  intros Hmark. rewrite activeSchedule_emitted, count_occ_app.
  rewrite activeSchedule_snd. unfold V1_reminderFor.
  destruct (List.find (isRunning _) _); [by split; [|simpl; lia]|].
  destruct (List.find (inWindow _) _) as [s|]; [|by split; [|simpl; lia]].
  unfold V1_afterReminder.
  destruct (reminderDue _ s st) eqn:Hdue; [|by split; [|simpl; lia]].
  split.
  - unfold getItem_truthy. simpl.
    destruct (decide (notifiedKey (id s) = notifiedKey i)) as [->|Hne].
    + by rewrite lookup_insert_eq.
    + by rewrite lookup_insert_ne.
  - simpl. destruct (string_dec (id s) i) as [Heq|]; [|lia].
    unfold reminderDue in Hdue. rewrite Heq, Hmark in Hdue.
    by rewrite andb_false_r in Hdue.
Qed.

Lemma run_marked env evs currentTime st i :
  existsb isFinish evs = false ->
  getItem_truthy (localStorage st) (notifiedKey i) = true ->
  getItem_truthy (localStorage (snd (run env evs (currentTime, st))))
                 (notifiedKey i) = true
  /\ count_occ string_dec (emitted (snd (run env evs (currentTime, st)))) i
     = count_occ string_dec (emitted st) i.
Proof.
  revert currentTime st. unfold run.
  induction evs as [|ev rest IH]; intros currentTime st Hnf Hmark; [done|].
  simpl in Hnf. apply orb_false_elim in Hnf as [Hev Hrest]. simpl fold_left.
  destruct ev as [now| |e|now]; try discriminate; simpl step.
  - destruct (activeSchedule_marked env now st i Hmark) as [Hm Hc].
    destruct (IH now _ Hrest Hm) as [Hm' Hc']. split; [done|congruence].
  - destruct (activeSchedule_marked env currentTime
                (set_showNotification None st) i Hmark) as [Hm Hc].
    destruct (IH currentTime _ Hrest Hm) as [Hm' Hc']. split; [done|].
    rewrite Hc'. exact Hc.
  - destruct (activeSchedule_marked env now
                (set_showNotification None st) i Hmark) as [Hm Hc].
    destruct (IH now _ Hrest Hm) as [Hm' Hc']. split; [done|].
    rewrite Hc'. exact Hc.
Qed.

End V1Reminder.

Section V2Reminder.

Import V2.

Lemma timingEffect_emitted env currentTime st :
  emitted (timingEffect env currentTime st)
  = (emitted st ++ V2_reminderFor currentTime st)%list.
Proof.
  rewrite timingEffect_eq. unfold V2_reminderFor.
  destruct (currentTask _ _) as [c|]; [|by rewrite app_nil_r].
  destruct (isActive _); [by rewrite app_nil_r|]. simpl negb. cbv iota.
  rewrite andb_true_l.
  destruct (_ && _); [done|by rewrite app_nil_r].
Qed.

Lemma timingEffect_showing env currentTime st :
  isActive (notificationState st) = true ->
  timingEffect env currentTime st = st.
Proof.
  intros H. rewrite timingEffect_eq.
  destruct (currentTask _ _); [|done]. by rewrite H.
Qed.

Lemma timingEffect_raises env currentTime st :
  V2_reminderFor currentTime st <> [] ->
  isActive (notificationState (timingEffect env currentTime st)) = true.
Proof.
  rewrite timingEffect_eq. unfold V2_reminderFor.
  destruct (currentTask _ _) as [c|]; [|done].
  destruct (isActive _); [done|]. simpl negb. rewrite andb_true_l.
  by destruct (_ && _).
Qed.

End V2Reminder.

(** C7, as the code has it.

    First variant.  An evaluation of the engine raises the reminder of a
    block only when no block is running, the block is the first of the list
    in its window, the minute of [now] equals its [endTime], no popup is
    showing and no marker [notified-<id>] is stored; raising it stores the
    marker.  As long as the marker of a block is stored, and so through any
    sequence of ticks, popup dismissals and restarts without a finish, no
    reminder is raised for that block and the marker stays.

    Second variant.  There is no marker per block: the effect raises the
    reminder of the current task when no popup is showing and
    [endTime <= now < endTime + 15 min], which shows the popup; while the
    popup shows, the effect does nothing.

    With one block 09:00-10:00 and ticks at 09:59:59, 10:00:00, 10:00:01 and
    10:05:00, both variants raise the reminder at 10:00:00 and at no other
    tick. *)
Theorem C7_reminder_once (env : V1.Env) (evs : list V1.Event)
    (currentTime : JS.Date) (st : V1.State) (i : string) :
  V1.getItem_truthy (V1.localStorage st) (V1.notifiedKey i) = true ->
  existsb V1.isFinish evs = false ->
  (V1.getItem_truthy (V1.localStorage (snd (V1.run env evs (currentTime, st))))
                     (V1.notifiedKey i) = true
   /\ count_occ string_dec (V1.emitted (snd (V1.run env evs (currentTime, st)))) i
      = count_occ string_dec (V1.emitted st) i)
  /\ (forall env1 now st1,
        V1.emitted (snd (V1.activeSchedule env1 now st1))
        = (V1.emitted st1 ++ V1_reminderFor (V1.minutesOfDate now) st1)%list)
  /\ (forall env1 now st1 j,
        In j (V1_reminderFor (V1.minutesOfDate now) st1) ->
        V1.getItem_truthy (V1.localStorage (snd (V1.activeSchedule env1 now st1)))
                          (V1.notifiedKey j) = true)
  /\ (forall env2 now st2,
        V2.emitted (V2.timingEffect env2 now st2)
        = (V2.emitted st2 ++ V2_reminderFor now st2)%list)
  /\ (forall env2 now st2,
        V2_reminderFor now st2 <> [] ->
        V2.isActive (V2.notificationState (V2.timingEffect env2 now st2)) = true)
  /\ (forall env2 now st2,
        V2.isActive (V2.notificationState st2) = true ->
        V2.timingEffect env2 now st2 = st2)
  /\ (let ticks := [at_hms 9 59 59; at_hms 10 0 0; at_hms 10 0 1; at_hms 10 5 0] in
      V1_tickTrace (Sample.v1_env 0) ticks
        (Sample.v1_state [Sample.v1_block "a" "A" "09:00" "10:00"])
        = [[]; ["a"]; ["a"]; ["a"]]
      /\ V2_tickTrace (Sample.v2_env 0) ticks
           (Sample.v2_state [Sample.v2_task "a" "A" "09:00" "10:00"])
         = [[]; ["a"]; ["a"]; ["a"]]).
Proof.
  intros Hmark Hnf.
  split; [by apply run_marked|].
  split; [apply activeSchedule_emitted|].
  split; [apply activeSchedule_sets_marker|].
  split; [apply timingEffect_emitted|].
  split; [apply timingEffect_raises|].
  split; [apply timingEffect_showing|].
  cbv zeta. split; vm_compute; reflexivity.
Qed.

Lemma C7_witness :
  let env := Sample.v1_env 0 in
  let st := snd (V1.activeSchedule env (at_hms 10 0 0)
                   (Sample.v1_state [Sample.v1_block "a" "A" "09:00" "10:00"])) in
  let evs := [V1.Tick (at_hms 10 0 1); V1.CloseNotification;
              V1.Tick (at_hms 10 0 30); V1.Restart (at_hms 10 0 45)] in
  V1.emitted st = ["a"]
  /\ count_occ string_dec (V1.emitted (snd (V1.run env evs (at_hms 10 0 0, st)))) "a"
     = 1%nat.
Proof.
  cbv zeta. split; [vm_compute; reflexivity|].
  destruct (C7_reminder_once (Sample.v1_env 0)
              [V1.Tick (at_hms 10 0 1); V1.CloseNotification;
               V1.Tick (at_hms 10 0 30); V1.Restart (at_hms 10 0 45)]
              (at_hms 10 0 0)
              (snd (V1.activeSchedule (Sample.v1_env 0) (at_hms 10 0 0)
                      (Sample.v1_state [Sample.v1_block "a" "A" "09:00" "10:00"])))
              "a")
    as ((_ & Hc) & _).
  - vm_compute. reflexivity.
  - reflexivity.
  - rewrite Hc. vm_compute. reflexivity.
Defined.

(** C7 as stated fails.  In the second variant a restart one second after
    the reminder raises it again: nothing stored says it was raised.  In the
    first variant, when the next block starts at the minute the block ends,
    the next block is running during that minute, and the reminder of the
    block that ended is not raised at any instant. *)
Lemma C7_counterexample :
  (let a := Sample.v2_task "a" "A" "09:00" "10:00" in
   V2.emitted
     (snd (V2.run (Sample.v2_env 0)
             [V2.Tick (at_hms 10 0 0); V2.Restart (at_hms 10 0 1)]
             (at_hms 9 59 59, Sample.v2_state [a])))
   = ["a"; "a"])
  /\ (let a := Sample.v1_block "a" "A" "09:00" "10:00" in
      let b := Sample.v1_block "b" "B" "10:00" "11:00" in
      forall now,
        ~ In "a" (V1_reminderFor (V1.minutesOfDate now) (Sample.v1_state [a; b]))).
Proof.
  cbv zeta. split; [vm_compute; reflexivity|].
  intros now Hin.
  apply reminderFor_cases in Hin as (s & Hrun & Hwin & Hdue & Hid).
  apply find_some in Hwin as [[<-|[<-|[]]] _]; [|discriminate Hid].
  unfold V1.reminderDue in Hdue.
  apply andb_prop in Hdue as [Hdue _]. apply andb_prop in Hdue as [Hdue _].
  unfold V1.minutesOfDate in *.
  replace (V1.minutesOf (V1.endTime (Sample.v1_block "a" "A" "09:00" "10:00")))
    with (Some 600) in Hdue by (vm_compute; reflexivity).
  apply seq_Some in Hdue. rewrite Hdue in Hrun.
  vm_compute in Hrun. discriminate.
Qed.

(** ** Time strings *)

Section TimeStrings.

(** A test that holds on the first [n] naturals holds on the integers of
    that range. *)
Lemma range_forallb (P : Z -> bool) (n : nat) :
  forallb (fun k => P (Z.of_nat k)) (seq 0 n) = true ->
  forall z, 0 <= z < Z.of_nat n -> P z = true.
Proof.
  intros H z Hz. rewrite forallb_forall in H.
  rewrite <- (Z2Nat.id z) by lia. apply H, in_seq. lia.
Qed.

Lemma range2_forallb (P : Z -> Z -> bool) (n1 n2 : nat) :
  forallb (fun a => forallb (fun b => P (Z.of_nat a) (Z.of_nat b)) (seq 0 n2))
          (seq 0 n1) = true ->
  forall x y, 0 <= x < Z.of_nat n1 -> 0 <= y < Z.of_nat n2 -> P x y = true.
Proof.
  intros H x y Hx Hy.
  apply (range_forallb (fun b => P x b) n2); [|done].
  apply (range_forallb
           (fun a => forallb (fun b => P a (Z.of_nat b)) (seq 0 n2)) n1); done.
Qed.

Lemma getHours_range (d : JS.Date) : 0 <= JS.getHours d < 24.
Proof. unfold JS.getHours. apply Z.mod_pos_bound. lia. Qed.

Lemma getMinutes_range (d : JS.Date) : 0 <= JS.getMinutes d < 60.
Proof. unfold JS.getMinutes. apply Z.mod_pos_bound. lia. Qed.

(** Both variants read a time of the form [HH:MM] as its hours and minutes. *)
Lemma minutesOf_hhmm (h m : Z) :
  0 <= h < 24 -> 0 <= m < 60 ->
  V1.minutesOf (hhmm h m) = Some (h * 60 + m).
Proof.
  intros Hh Hm.
  assert (Hall := range2_forallb
    (fun h m => bool_decide (V1.minutesOf (hhmm h m) = Some (h * 60 + m))) 24 60).
  cbv beta in Hall. eapply bool_decide_eq_true_1, Hall; [vm_compute; reflexivity|lia|lia].
Qed.

Lemma timeStringToDate_hhmm (h m : Z) :
  0 <= h < 24 -> 0 <= m < 60 ->
  V2.timeStringToDate (hhmm h m) = Some ((h * 60 + m) * 60000).
Proof.
  intros Hh Hm.
  assert (Hall := range2_forallb
    (fun h m => bool_decide
        (V2.timeStringToDate (hhmm h m) = Some ((h * 60 + m) * 60000))) 24 60).
  cbv beta in Hall. eapply bool_decide_eq_true_1, Hall; [vm_compute; reflexivity|lia|lia].
Qed.

(** Two numbers on two digits compare as their characters do. *)
Lemma pad_compare_Z (a b : Z) :
  0 <= a < 100 -> 0 <= b < 100 -> pad_compare a b = (a ?= b).
Proof.
  intros Ha Hb.
  assert (Hall := range2_forallb
    (fun a b => bool_decide (pad_compare a b = (a ?= b))) 100 100).
  cbv beta in Hall. eapply bool_decide_eq_true_1, Hall; [vm_compute; reflexivity|lia|lia].
Qed.

Lemma compare_pad (a b : Z) (r1 r2 : string) :
  String.compare (JS.pad a +:+ r1) (JS.pad b +:+ r2)
  = match pad_compare a b with
    | Eq => String.compare r1 r2
    | c => c
    end.
Proof.
  unfold JS.pad, pad_compare. simpl.
  by destruct (Ascii.compare (JS.digit_char (a / 10)) (JS.digit_char (b / 10))).
Qed.

Lemma compare_colon (r1 r2 : string) :
  String.compare (":" +:+ r1) (":" +:+ r2) = String.compare r1 r2.
Proof. reflexivity. Qed.

Lemma pad_append_nil (a : Z) : JS.pad a = JS.pad a +:+ "".
Proof. reflexivity. Qed.

Lemma compare_hhmm (h1 m1 h2 m2 : Z) :
  0 <= h1 < 24 -> 0 <= m1 < 60 -> 0 <= h2 < 24 -> 0 <= m2 < 60 ->
  String.compare (hhmm h1 m1) (hhmm h2 m2) = (h1 * 60 + m1 ?= h2 * 60 + m2).
Proof.
  intros Hh1 Hm1 Hh2 Hm2. unfold hhmm.
  rewrite compare_pad, pad_compare_Z, compare_colon by lia.
  rewrite (pad_append_nil m1), (pad_append_nil m2).
  rewrite compare_pad, pad_compare_Z by lia. simpl String.compare.
  destruct (Z.compare_spec h1 h2) as [->|Hh|Hh].
  - destruct (Z.compare_spec m1 m2) as [->|Hm|Hm]; symmetry.
    + apply Z.compare_refl.
    + apply Z.compare_lt_iff. lia.
    + apply Z.compare_gt_iff. lia.
  - symmetry. apply Z.compare_lt_iff. lia.
  - symmetry. apply Z.compare_gt_iff. lia.
Qed.

End TimeStrings.

(** X1.  The clock face the first variant prints reads back as the minute
    it was printed from: parsing [formatTime(d)] with the expression the
    engine uses for every time string gives [d.getHours() * 60 +
    d.getMinutes()]. *)
Theorem X1_formatTime_reads_back (d : JS.Date) :
  V1.minutesOf (V1.formatTime d) = V1.minutesOfDate d.
Proof.
  unfold V1.formatTime, V1.minutesOfDate.
  apply (minutesOf_hhmm (JS.getHours d) (JS.getMinutes d));
    [apply getHours_range|apply getMinutes_range].
Qed.

(** X2.  The [actualEnd] string the second variant logs reads back, through
    [timeStringToDate], as the logged instant rounded down to the minute. *)
Theorem X2_actualEnd_reads_back (d : JS.Date) :
  0 <= d < 86400000 ->
  V2.timeStringToDate (V2.toLocaleTimeString (Some d)) = Some (d - d mod 60000).
Proof.
  intros Hd. unfold V2.toLocaleTimeString.
  change (JS.pad (JS.getHours d) +:+ ":" +:+ JS.pad (JS.getMinutes d))
    with (hhmm (JS.getHours d) (JS.getMinutes d)).
  rewrite timeStringToDate_hhmm by (apply getHours_range || apply getMinutes_range).
  f_equal. unfold JS.getHours, JS.getMinutes.
  assert (H1 : d / 3600000 = d / 60000 / 60) by (rewrite Z.div_div; [reflexivity|lia|lia]).
  assert (H2 : 0 <= d / 3600000 < 24)
    by (split; [apply Z.div_pos; lia|apply Z.div_lt_upper_bound; lia]).
  rewrite (Z.mod_small (d / 3600000) 24) by exact H2.
  pose proof (Z.div_mod (d / 60000) 60 ltac:(lia)) as H3.
  pose proof (Z.div_mod d 60000 ltac:(lia)) as H4.
  lia.
Qed.

Lemma X2_witness :
  V2.timeStringToDate (V2.toLocaleTimeString (Some (at_hms 10 15 1)))
  = Some (at_hms 10 15 0).
Proof.
  rewrite (X2_actualEnd_reads_back (at_hms 10 15 1)); [reflexivity|].
  unfold at_hms. lia.
Defined.

(** X3.  For times of the form [HH:MM], the order of the strings, which the
    snapshot listeners and the form sort by, is the order of the instants
    the engine compares: one string is greater than another exactly when it
    parses to a later time, in both variants. *)
Theorem X3_string_order_is_time_order (h1 m1 h2 m2 : Z) :
  0 <= h1 < 24 -> 0 <= m1 < 60 -> 0 <= h2 < 24 -> 0 <= m2 < 60 ->
  JS.string_gt (hhmm h1 m1) (hhmm h2 m2)
    = JS.gt (V2.timeStringToDate (hhmm h1 m1)) (V2.timeStringToDate (hhmm h2 m2))
  /\ JS.string_gt (hhmm h1 m1) (hhmm h2 m2)
    = JS.gt (V1.minutesOf (hhmm h1 m1)) (V1.minutesOf (hhmm h2 m2)).
Proof.
  intros Hh1 Hm1 Hh2 Hm2.
  rewrite !timeStringToDate_hhmm, !minutesOf_hhmm by done.
  unfold JS.string_gt, String.ltb. rewrite compare_hhmm by done.
  unfold JS.gt. rewrite !Z.gtb_ltb.
  destruct (Z.compare_spec (h2 * 60 + m2) (h1 * 60 + m1));
    split; symmetry; (apply Z.ltb_lt; lia) || (apply Z.ltb_ge; lia).
Qed.

Lemma X3_witness :
  JS.string_gt "10:05" "09:59" = true
  /\ JS.gt (V2.timeStringToDate "10:05") (V2.timeStringToDate "09:59") = true.
Proof.
  destruct (X3_string_order_is_time_order 10 5 9 59) as [H _]; try lia.
  split; [reflexivity|].
  change (JS.gt (V2.timeStringToDate (hhmm 10 5)) (V2.timeStringToDate (hhmm 9 59)) = true).
  rewrite <- H. reflexivity.
Defined.

(** ** The order of the schedule list *)

Section KeyOrder.

Import OrderedTypeEx.

Lemma string_gt_lt (a b : string) :
  JS.string_gt a b = true <-> String_as_OT.lt b a.
Proof.
  unfold JS.string_gt, String.ltb. rewrite <- String_as_OT.cmp_lt.
  unfold String_as_OT.cmp. by destruct (String.compare b a).
Qed.

Lemma string_gt_asym (a b : string) :
  JS.string_gt a b = true -> JS.string_gt b a = false.
Proof.
  intros H. destruct (JS.string_gt b a) eqn:H'; [|done].
  apply string_gt_lt in H, H'.
  by destruct (String_as_OT.lt_not_eq _ _ (String_as_OT.lt_trans _ _ _ H H')).
Qed.

(** [x < y] and [y <= z] give [x <= z]. *)
Lemma string_not_gt_trans (x y z : string) :
  JS.string_gt y x = true -> JS.string_gt y z = false -> JS.string_gt x z = false.
Proof.
  intros Hxy Hyz. destruct (JS.string_gt x z) eqn:Hzx; [|done].
  apply string_gt_lt in Hxy, Hzx.
  assert (Hzy := String_as_OT.lt_trans _ _ _ Hzx Hxy).
  apply string_gt_lt in Hzy. congruence.
Qed.

(** [x < y] and [y <= z] give [x < z]. *)
Lemma string_gt_le_trans (x y z : string) :
  JS.string_gt y x = true -> JS.string_gt y z = false -> JS.string_gt z x = true.
Proof.
  intros Hxy Hyz. unfold JS.string_gt, String.ltb.
  destruct (String.compare x z) eqn:Hc; [| done |].
  - apply String_as_OT.cmp_eq in Hc. subst z. congruence.
  - assert (Hzx : JS.string_gt x z = true).
    { unfold JS.string_gt, String.ltb.
      rewrite String.compare_antisym, Hc. reflexivity. }
    pose proof (string_not_gt_trans _ _ _ Hxy Hyz). congruence.
Qed.

Context {A : Type} (key : A -> string).

Lemma insert_by_ordered (x : A) (l : list A) :
  inKeyOrder key l -> inKeyOrder key (JS.insert_by key x l).
Proof.
  unfold inKeyOrder. induction 1 as [|y rest Hsorted IH Hall]; simpl.
  - repeat constructor.
  - destruct (JS.string_gt (key y) (key x)) eqn:Hgt.
    + constructor; [by constructor|].
      constructor; [by apply string_gt_asym|].
      eapply List.Forall_impl; [|exact Hall].
      intros z Hz. by apply (string_not_gt_trans _ (key y)).
    + constructor; [exact IH|].
      eapply Permutation_Forall; [symmetry; apply insert_by_Permutation|].
      by constructor.
Qed.

(** The sort delivers a list in key order. *)
Lemma sort_by_ordered (l : list A) : inKeyOrder key (JS.sort_by key l).
Proof.
  unfold JS.sort_by.
  assert (H : forall acc, inKeyOrder key acc ->
            inKeyOrder key (fold_left (fun a x => JS.insert_by key x a) l acc)).
  { induction l as [|x rest IH]; intros acc Hacc; simpl; [done|].
    apply IH. by apply insert_by_ordered. }
  apply H. constructor.
Qed.

(** Where the insertion puts [x]: after the elements whose key is not
    greater, before the elements whose key is greater. *)
Lemma insert_by_split (x : A) (l : list A) :
  inKeyOrder key l ->
  exists l1 l2,
    l = (l1 ++ l2)%list
    /\ JS.insert_by key x l = (l1 ++ x :: l2)%list
    /\ Forall (fun y => JS.string_gt (key y) (key x) = false) l1
    /\ Forall (fun y => JS.string_gt (key y) (key x) = true) l2.
Proof.
  unfold inKeyOrder. induction 1 as [|y rest Hsorted IH Hall]; simpl.
  - exists [], []. by repeat split.
  - destruct (JS.string_gt (key y) (key x)) eqn:Hgt.
    + exists [], (y :: rest). repeat split; [constructor|].
      constructor; [done|].
      eapply List.Forall_impl; [|exact Hall].
      intros z Hz. by apply (string_gt_le_trans _ (key y)).
    + destruct IH as (l1 & l2 & -> & -> & H1 & H2).
      exists (y :: l1), l2. repeat split; [by constructor|done].
Qed.

Lemma insert_by_last (x : A) (l : list A) :
  Forall (fun y => JS.string_gt (key y) (key x) = false) l ->
  JS.insert_by key x l = (l ++ [x])%list.
Proof.
  induction 1 as [|y rest Hy Hrest IH]; simpl; [done|].
  by rewrite Hy, IH.
Qed.

Lemma inKeyOrder_app_last (l : list A) (x : A) :
  inKeyOrder key (l ++ [x])%list ->
  inKeyOrder key l /\ Forall (fun y => JS.string_gt (key y) (key x) = false) l.
Proof.
  unfold inKeyOrder. induction l as [|y rest IH]; simpl; intros H.
  - split; constructor.
  - inversion H as [|? ? Hs Hall]; subst.
    destruct (IH Hs) as [IH1 IH2]. split.
    + constructor; [done|].
      apply List.Forall_app in Hall. tauto.
    + constructor; [|done].
      apply List.Forall_app in Hall as [_ Hx]. by inversion Hx.
Qed.

(** A list in key order is left as it is. *)
Lemma sort_by_sorted (l : list A) : inKeyOrder key l -> JS.sort_by key l = l.
Proof.
  induction l as [|x rest IH] using rev_ind; [done|].
  intros H. apply inKeyOrder_app_last in H as [Hl Hx].
  unfold JS.sort_by in *. rewrite fold_left_app. simpl.
  rewrite (IH Hl). by apply insert_by_last.
Qed.

Lemma sort_by_snoc (l : list A) (x : A) :
  JS.sort_by key (l ++ [x]) = JS.insert_by key x (JS.sort_by key l).
Proof. unfold JS.sort_by. by rewrite fold_left_app. Qed.

Lemma sort_by_idem (l : list A) :
  JS.sort_by key (JS.sort_by key l) = JS.sort_by key l.
Proof. apply sort_by_sorted, sort_by_ordered. Qed.

Lemma map_inKeyOrder (f : A -> A) (l : list A) :
  (forall x, key (f x) = key x) ->
  inKeyOrder key l -> inKeyOrder key (map f l).
Proof.
  intros Hf. unfold inKeyOrder. induction 1 as [|y rest Hsorted IH Hall]; simpl.
  - constructor.
  - constructor; [done|]. apply List.Forall_map.
    eapply List.Forall_impl; [|exact Hall]. intros z Hz. simpl. by rewrite !Hf.
Qed.

Lemma filter_inKeyOrder (p : A -> bool) (l : list A) :
  inKeyOrder key l -> inKeyOrder key (List.filter p l).
Proof.
  unfold inKeyOrder. induction 1 as [|y rest Hsorted IH Hall]; simpl.
  - constructor.
  - destruct (p y); [|done]. constructor; [done|].
    apply List.Forall_forall. intros z Hz. apply filter_In in Hz as [Hz _].
    by apply (proj1 (List.Forall_forall _ _) Hall).
Qed.

End KeyOrder.

Section V2Order.

Import V2.

Lemma deliver_ordered stored st : inKeyOrder startTime (tasks (deliver stored st)).
Proof. apply sort_by_ordered. Qed.

Lemma updateTaskStatus_ordered env taskId newStatus st :
  inKeyOrder startTime (tasks st) ->
  inKeyOrder startTime (tasks (updateTaskStatus env taskId newStatus st)).
Proof.
  intros H. unfold updateTaskStatus.
  destruct (setDoc_ok env); [apply deliver_ordered|exact H].
Qed.

(** On a list in order, the status write changes the statuses in place. *)
Lemma updateTaskStatus_in_place env taskId newStatus st :
  inKeyOrder startTime (tasks st) ->
  tasks (updateTaskStatus env taskId newStatus st) =
  if setDoc_ok env
  then map (fun t => if String.eqb (id t) taskId then withStatus newStatus t else t)
           (tasks st)
  else tasks st.
Proof.
  intros H. unfold updateTaskStatus. destruct (setDoc_ok env); [|done].
  unfold deliver. simpl. apply sort_by_sorted, map_inKeyOrder; [|exact H].
  intros t. by destruct (String.eqb (id t) taskId).
Qed.

Lemma handleFinished_in_place env current st :
  inKeyOrder startTime (tasks st) ->
  tasks (handleFinished env current st) =
  match current with
  | Some c =>
      if setDoc_ok env
      then map (fun t => if String.eqb (id t) (id c) then withStatus completed t else t)
               (tasks st)
      else tasks st
  | None => tasks st
  end.
Proof.
  intros H. unfold handleFinished, finishWrites. destruct current as [c|]; [|done].
  rewrite updateTaskStatus_in_place; rewrite logActivityToHistory_tasks; done.
Qed.

Lemma sameBlock_refl t : sameBlock t t.
Proof. unfold sameBlock. tauto. Qed.

Lemma sameBlock_trans t1 t2 t3 : sameBlock t1 t2 -> sameBlock t2 t3 -> sameBlock t1 t3.
Proof.
  unfold sameBlock. intros (-> & -> & -> & -> & H1) (-> & -> & -> & -> & H2).
  repeat split. destruct H2 as [->|H2]; [done|by right].
Qed.

Lemma Forall2_sameBlock_refl l : Forall2 sameBlock l l.
Proof. induction l; constructor; [apply sameBlock_refl|done]. Qed.

Lemma Forall2_sameBlock_trans l1 l2 l3 :
  Forall2 sameBlock l1 l2 -> Forall2 sameBlock l2 l3 -> Forall2 sameBlock l1 l3.
Proof.
  intros H. revert l3. induction H as [|a b l1 l2 Hab H12 IH]; intros l3 H23.
  - inversion H23. constructor.
  - inversion H23 as [|? c ? l3' Hbc H23']; subst.
    constructor; [by eapply sameBlock_trans|by apply IH].
Qed.

Lemma Forall2_sameBlock_complete taskId l :
  Forall2 sameBlock l
    (map (fun t => if String.eqb (id t) taskId then withStatus completed t else t) l).
Proof.
  induction l as [|t rest IH]; simpl; constructor; [|done].
  destruct (String.eqb (id t) taskId); [|apply sameBlock_refl].
  unfold sameBlock. simpl. repeat split. by right.
Qed.

Lemma handleFinished_sameBlock env current st :
  inKeyOrder startTime (tasks st) ->
  Forall2 sameBlock (tasks st) (tasks (handleFinished env current st)).
Proof.
  intros H. rewrite (handleFinished_in_place _ _ _ H).
  destruct current as [c|]; [|apply Forall2_sameBlock_refl].
  destruct (setDoc_ok env); [|apply Forall2_sameBlock_refl].
  apply Forall2_sameBlock_complete.
Qed.

Lemma handleFinished_ordered env current st :
  inKeyOrder startTime (tasks st) ->
  inKeyOrder startTime (tasks (handleFinished env current st)).
Proof.
  intros H. unfold handleFinished, finishWrites. destruct current as [c|]; [|done].
  apply updateTaskStatus_ordered. by rewrite logActivityToHistory_tasks.
Qed.

Lemma step_tasks env ev currentTime st :
  inKeyOrder startTime (tasks st) ->
  inKeyOrder startTime (tasks (snd (step env ev (currentTime, st))))
  /\ Forall2 sameBlock (tasks st) (tasks (snd (step env ev (currentTime, st)))).
Proof.
  intros H. destruct ev as [now|e|now]; simpl.
  - destruct (timingEffect_store env now st) as [-> _].
    split; [done|apply Forall2_sameBlock_refl].
  - destruct (acknowledge_store env e currentTime st) as [-> _].
    split; [by apply handleFinished_ordered|by apply handleFinished_sameBlock].
  - destruct (timingEffect_store env now (set_notification idle st)) as [-> _].
    split; [done|apply Forall2_sameBlock_refl].
Qed.

Lemma run_tasks env evs currentTime st :
  inKeyOrder startTime (tasks st) ->
  inKeyOrder startTime (tasks (snd (run env evs (currentTime, st))))
  /\ Forall2 sameBlock (tasks st) (tasks (snd (run env evs (currentTime, st)))).
Proof.
  revert currentTime st. unfold run.
  induction evs as [|ev rest IH]; intros currentTime st H; cbn [fold_left].
  - split; [done|apply Forall2_sameBlock_refl].
  - destruct (step_tasks env ev currentTime st H) as [Ho Hs].
    destruct (step env ev (currentTime, st)) as [t1 st1] eqn:Hstep. simpl in Ho, Hs.
    destruct (IH t1 st1 Ho) as [Ho' Hs']. split; [done|].
    by eapply Forall2_sameBlock_trans.
Qed.

Lemma handleSubmit_tasks_cases env activity_ s e st :
  tasks (handleSubmit env activity_ s e st) = tasks st
  \/ tasks (handleSubmit env activity_ s e st)
     = JS.sort_by startTime
         (JS.sort_by startTime
            (tasks st ++
               [ {| id := newId env; activity := activity_; startTime := s;
                    endTime := e; status := pending |} ])).
Proof.
  unfold handleSubmit.
  destruct (_ || _ || _); [by left|].
  destruct (JS.le _ _); [by left|].
  destruct (setDoc_ok env); [by right|by left].
Qed.

Lemma handleSubmit_ordered env activity_ s e st :
  inKeyOrder startTime (tasks st) ->
  inKeyOrder startTime (tasks (handleSubmit env activity_ s e st)).
Proof.
  intros H. destruct (handleSubmit_tasks_cases env activity_ s e st) as [->| ->];
    [done|apply sort_by_ordered].
Qed.

Lemma handleRemove_ordered env taskId st :
  inKeyOrder startTime (tasks st) ->
  inKeyOrder startTime (tasks (handleRemove env taskId st)).
Proof.
  intros H. unfold handleRemove.
  destruct (setDoc_ok env); [apply deliver_ordered|exact H].
Qed.

End V2Order.

(** X4.  The second variant keeps its task list in the order of [startTime]:
    from a list in order, every run of scheduler events (ticks,
    acknowledgements, restarts) and every submission or removal of the form,
    whether its write succeeds or fails, leaves a list in order. *)
Theorem X4_task_list_stays_in_order (st : V2.State) :
  inKeyOrder V2.startTime (V2.tasks st) ->
  (forall env evs currentTime,
      inKeyOrder V2.startTime (V2.tasks (snd (V2.run env evs (currentTime, st)))))
  /\ (forall env activity_ s e,
      inKeyOrder V2.startTime (V2.tasks (V2.handleSubmit env activity_ s e st)))
  /\ (forall env taskId,
      inKeyOrder V2.startTime (V2.tasks (V2.handleRemove env taskId st))).
Proof.
  intros H. split; [|split].
  - intros env evs currentTime. by apply run_tasks.
  - intros. by apply handleSubmit_ordered.
  - intros. by apply handleRemove_ordered.
Qed.

Lemma X4_witness :
  inKeyOrder V2.startTime
    (V2.tasks (V2.handleSubmit (Sample.v2_env 0) "B" "08:00" "08:30"
                 (Sample.v2_state [Sample.v2_task "a" "A" "09:00" "10:00"]))).
Proof.
  apply (X4_task_list_stays_in_order
           (Sample.v2_state [Sample.v2_task "a" "A" "09:00" "10:00"])).
  repeat constructor.
Defined.

(** X5.  The scheduler of the second variant never adds, removes, reorders
    or renames a task and never writes the status overtimed: after any run
    of ticks, acknowledgements and restarts from a list in order, the stored
    list has, position by position, the same tasks with the same id,
    activity and times, each with the status it had or with the status
    completed. *)
Theorem X5_scheduler_only_completes (env : V2.Env) (evs : list V2.Event)
    (currentTime : JS.Date) (st : V2.State) :
  inKeyOrder V2.startTime (V2.tasks st) ->
  Forall2 sameBlock (V2.tasks st) (V2.tasks (snd (V2.run env evs (currentTime, st)))).
Proof. intros H. by apply run_tasks. Qed.

Lemma X5_witness :
  let a := Sample.v2_task "a" "A" "09:00" "10:00" in
  let b := Sample.v2_task "b" "B" "10:00" "11:00" in
  Forall2 sameBlock [a; b]
    (V2.tasks (snd (V2.run (Sample.v2_env (at_hms 10 2 0))
                      [V2.Tick (at_hms 10 0 0);
                       V2.Acknowledge (Sample.v2_env (at_hms 10 2 0));
                       V2.Tick (at_hms 11 30 0)]
                      (0, Sample.v2_state [a; b])))).
Proof.
  cbv zeta.
  apply (X5_scheduler_only_completes (Sample.v2_env (at_hms 10 2 0))
           [V2.Tick (at_hms 10 0 0);
            V2.Acknowledge (Sample.v2_env (at_hms 10 2 0));
            V2.Tick (at_hms 11 30 0)]
           0
           (Sample.v2_state [Sample.v2_task "a" "A" "09:00" "10:00";
                             Sample.v2_task "b" "B" "10:00" "11:00"])).
  repeat constructor.
Defined.

Section V2Form.

Import V2.

Lemma handleSubmit_accepted env activity_ s e st :
  accepts activity_ s e ->
  setDoc_ok env = true ->
  inKeyOrder startTime (tasks st) ->
  tasks (handleSubmit env activity_ s e st)
  = JS.insert_by startTime
      {| id := newId env; activity := activity_; startTime := s;
         endTime := e; status := pending |} (tasks st).
Proof.
  intros (Ha & Hs & He & vs & ve & Hvs & Hve & Hlt) Hok Hord.
  unfold handleSubmit. rewrite Ha, Hs, He, Hvs, Hve, Hok. simpl negb. simpl orb.
  cbv iota.
  replace (JS.le (Some ve) (Some vs)) with false by (symmetry; apply Z.leb_gt; lia).
  unfold deliver. simpl tasks.
  by rewrite sort_by_idem, sort_by_snoc, (sort_by_sorted _ _ Hord).
Qed.

Lemma filter_all {A : Type} (p : A -> bool) (l : list A) :
  Forall (fun x => p x = true) l -> List.filter p l = l.
Proof. induction 1 as [|x rest Hx _ IH]; simpl; [done|]. by rewrite Hx, IH. Qed.

Lemma handleSubmit_split env activity_ s e st :
  accepts activity_ s e ->
  setDoc_ok env = true ->
  inKeyOrder startTime (tasks st) ->
  exists l1 l2,
    tasks st = (l1 ++ l2)%list
    /\ tasks (handleSubmit env activity_ s e st)
       = (l1 ++ {| id := newId env; activity := activity_; startTime := s;
                   endTime := e; status := pending |} :: l2)%list
    /\ Forall (fun t => JS.string_gt (startTime t) s = false) l1
    /\ Forall (fun t => JS.string_gt (startTime t) s = true) l2.
Proof.
  intros Hacc Hok Hord. rewrite (handleSubmit_accepted _ _ _ _ _ Hacc Hok Hord).
  apply (insert_by_split startTime
           {| id := newId env; activity := activity_; startTime := s;
              endTime := e; status := pending |} _ Hord).
Qed.

End V2Form.

(** X6.  A submission the form of the second variant takes and saves puts
    the new task, with status pending, into the list in order at one place:
    after every task whose [startTime] is not greater than its own, so after
    the tasks that start at the same time, and before every task that starts
    later.  The other tasks keep their places. *)
Theorem X6_submit_inserts_in_place (env : V2.Env) (activity_ s e : string)
    (st : V2.State) :
  accepts activity_ s e ->
  V2.setDoc_ok env = true ->
  inKeyOrder V2.startTime (V2.tasks st) ->
  exists l1 l2,
    V2.tasks st = (l1 ++ l2)%list
    /\ V2.tasks (V2.handleSubmit env activity_ s e st)
       = (l1 ++ {| V2.id := V2.newId env; V2.activity := activity_;
                   V2.startTime := s; V2.endTime := e;
                   V2.status := V2.pending |} :: l2)%list
    /\ Forall (fun t => JS.string_gt (V2.startTime t) s = false) l1
    /\ Forall (fun t => JS.string_gt (V2.startTime t) s = true) l2.
Proof.
  intros Hacc Hok Hord. by apply handleSubmit_split.
Qed.

Lemma X6_witness :
  let a := Sample.v2_task "a" "A" "09:00" "10:00" in
  let b := Sample.v2_task "b" "B" "11:00" "12:00" in
  exists l1 l2,
    [a; b] = (l1 ++ l2)%list
    /\ V2.tasks (V2.handleSubmit (Sample.v2_env 0) "C" "09:00" "09:30"
                   (Sample.v2_state [a; b]))
       = (l1 ++ {| V2.id := "1735725600000"; V2.activity := "C";
                   V2.startTime := "09:00"; V2.endTime := "09:30";
                   V2.status := V2.pending |} :: l2)%list.
Proof.
  cbv zeta.
  destruct (X6_submit_inserts_in_place (Sample.v2_env 0) "C" "09:00" "09:30"
              (Sample.v2_state [Sample.v2_task "a" "A" "09:00" "10:00";
                                Sample.v2_task "b" "B" "11:00" "12:00"]))
    as (l1 & l2 & H1 & H2 & _).
  - repeat split; try reflexivity.
    exists (at_hms 9 0 0), (at_hms 9 30 0). repeat split; reflexivity.
  - reflexivity.
  - repeat constructor.
  - exists l1, l2. split; [exact H1|exact H2].
Defined.

(** X7.  Removing a task that was just submitted gives back the list as it
    was: when the list is in order, no stored task has the id of the new
    task, and both writes succeed, [handleRemove] of that id after
    [handleSubmit] leaves exactly the tasks there were, in their order. *)
Theorem X7_remove_undoes_submit (env env' : V2.Env) (activity_ s e : string)
    (st : V2.State) :
  accepts activity_ s e ->
  V2.setDoc_ok env = true ->
  V2.setDoc_ok env' = true ->
  inKeyOrder V2.startTime (V2.tasks st) ->
  Forall (fun t => V2.id t <> V2.newId env) (V2.tasks st) ->
  V2.tasks (V2.handleRemove env' (V2.newId env) (V2.handleSubmit env activity_ s e st))
  = V2.tasks st.
Proof.
  intros Hacc Hok Hok' Hord Hfresh.
  destruct (handleSubmit_split env activity_ s e st Hacc Hok Hord) as (l1 & l2 & Hst & Hst' & _).
  unfold V2.handleRemove. rewrite Hok'. unfold V2.deliver. simpl V2.tasks.
  rewrite Hst', Hst in *. rewrite List.filter_app. simpl.
  rewrite String.eqb_refl. simpl.
  apply List.Forall_app in Hfresh as [Hf1 Hf2].
  rewrite !filter_all.
  - by apply sort_by_sorted.
  - eapply List.Forall_impl; [|exact Hf2]. intros t Ht. simpl.
    apply negb_true_iff. by apply String.eqb_neq.
  - eapply List.Forall_impl; [|exact Hf1]. intros t Ht. simpl.
    apply negb_true_iff. by apply String.eqb_neq.
Qed.

Lemma X7_witness :
  let st := Sample.v2_state [Sample.v2_task "a" "A" "09:00" "10:00"] in
  V2.tasks (V2.handleRemove (Sample.v2_env 0) "1735725600000"
              (V2.handleSubmit (Sample.v2_env 0) "B" "08:00" "08:30" st))
  = V2.tasks st.
Proof.
  apply (X7_remove_undoes_submit (Sample.v2_env 0) (Sample.v2_env 0)
           "B" "08:00" "08:30"
           (Sample.v2_state [Sample.v2_task "a" "A" "09:00" "10:00"])).
  - repeat split; try reflexivity.
    exists (at_hms 8 0 0), (at_hms 8 30 0). repeat split; reflexivity.
  - reflexivity.
  - reflexivity.
  - repeat constructor.
  - repeat constructor. discriminate.
Defined.

(** X8.  [handleRemove] of the second variant, when its write succeeds,
    removes every task with the given id and no other: a task is stored
    afterwards exactly when it was stored before and has another id.  When
    the write fails the tasks are left as they were and the error is logged.
    In no case does it touch the history. *)
Theorem X8_remove_by_id (env : V2.Env) (taskId : string) (st : V2.State) :
  let st' := V2.handleRemove env taskId st in
  V2.history st' = V2.history st
  /\ (V2.setDoc_ok env = true ->
      forall t, In t (V2.tasks st') <-> In t (V2.tasks st) /\ V2.id t <> taskId)
  /\ (V2.setDoc_ok env = false ->
      V2.tasks st' = V2.tasks st
      /\ V2.console st' = (V2.console st ++ ["Error removing task:"])%list).
Proof.
  cbv zeta. unfold V2.handleRemove. destruct (V2.setDoc_ok env).
  - split; [done|]. split; [|done]. intros _ t. unfold V2.deliver. simpl.
    rewrite sort_by_In, filter_In, negb_true_iff. by rewrite String.eqb_neq.
  - split; [done|]. split; [done|]. by intros _.
Qed.

(** ** The finish button *)

Section V2Button.

Import V2.

Lemma isCurrent_end currentTime c :
  isCurrent currentTime c = true ->
  exists e, timeStringToDate (endTime c) = Some e /\ currentTime < e + MS_20_MIN.
Proof.
  unfold isCurrent. intros H.
  apply andb_prop in H as [H _]. apply andb_prop in H as [_ H].
  destruct (timeStringToDate (endTime c)) as [e|]; [|done].
  exists e. split; [done|]. by apply lt_Some in H.
Qed.

(** The four faces of the button, by the instant. *)
Lemma finishButtonStatus_style now c e :
  timeStringToDate (endTime c) = Some e ->
  style (finishButtonStatus now (Some c)) =
  if now <? e then "bg-indigo-600 hover:bg-indigo-700"
  else if now <? e + MS_15_MIN then "bg-green-600 hover:bg-green-700 animate-pulse"
  else if now <? e + MS_20_MIN then "bg-red-500 hover:bg-red-600 shadow-xl"
  else "bg-gray-500 cursor-not-allowed".
Proof.
  intros He. unfold finishButtonStatus. rewrite He. cbn [JS.add JS.lt JS.ge].
  destruct (now <? e) eqn:H1; [done|].
  apply Z.ltb_ge in H1.
  replace (now >=? e) with true by (symmetry; rewrite Z.geb_leb; apply Z.leb_le; lia).
  cbn [andb].
  destruct (now <? e + MS_15_MIN) eqn:H2; [done|].
  apply Z.ltb_ge in H2.
  replace (now >=? e + MS_15_MIN) with true
    by (symmetry; rewrite Z.geb_leb; apply Z.leb_le; lia).
  cbn [andb]. by destruct (now <? e + MS_20_MIN).
Qed.

End V2Button.

(** X9.  In the second variant the finish button and [currentTask] read two
    clocks: [currentTask] is computed from the [currentTime] of the state,
    the face of the button from the [new Date()] taken when the memo runs.
    For the task [currentTask] picks, the state's instant is before
    [endTime + 20 min], and the button is enabled exactly when the memo's
    instant is before [endTime + 20 min] too; it is enabled in particular
    when the memo's instant is not after the state's. *)
Theorem X9_button_enabled_iff (currentTime now : JS.Date) (ts : list V2.Task)
    (c : V2.Task) :
  V2.currentTask currentTime ts = Some c ->
  exists e,
    V2.timeStringToDate (V2.endTime c) = Some e
    /\ currentTime < e + V2.MS_20_MIN
    /\ (V2.finishDisabled now (V2.currentTask currentTime ts) = false
        <-> now < e + V2.MS_20_MIN)
    /\ (now <= currentTime ->
        V2.finishDisabled now (V2.currentTask currentTime ts) = false).
Proof.
  intros Hc. rewrite Hc. unfold V2.finishDisabled.
  apply currentTask_isCurrent, isCurrent_end in Hc as (e & He & Hlt).
  exists e. split; [done|]. split; [done|].
  rewrite (finishButtonStatus_style _ _ _ He).
  assert (Hiff : negb (bool_decide (is_Some (Some c)))
                 || JS.includes
                      (if now <? e then "bg-indigo-600 hover:bg-indigo-700"
                       else if now <? e + V2.MS_15_MIN
                            then "bg-green-600 hover:bg-green-700 animate-pulse"
                            else if now <? e + V2.MS_20_MIN
                                 then "bg-red-500 hover:bg-red-600 shadow-xl"
                                 else "bg-gray-500 cursor-not-allowed")
                      "cursor-not-allowed" = false
                 <-> now < e + V2.MS_20_MIN).
  { destruct (Z.ltb_spec now e) as [H1|H1].
    { split; [intros _; unfold V2.MS_20_MIN; lia|intros _; vm_compute; reflexivity]. }
    destruct (Z.ltb_spec now (e + V2.MS_15_MIN)) as [H2|H2].
    { split; [intros _; unfold V2.MS_15_MIN, V2.MS_20_MIN in *; lia
             |intros _; vm_compute; reflexivity]. }
    destruct (Z.ltb_spec now (e + V2.MS_20_MIN)) as [H3|H3].
    { split; [done|intros _; vm_compute; reflexivity]. }
    split; [vm_compute; discriminate|lia]. }
  split; [exact Hiff|]. intros Hle. apply Hiff. lia.
Qed.

Lemma X9_witness :
  let a := Sample.v2_task "a" "A" "09:00" "10:00" in
  (exists e,
      V2.timeStringToDate (V2.endTime a) = Some e
      /\ at_hms 10 19 59 + 999 < e + V2.MS_20_MIN
      /\ (V2.finishDisabled (at_hms 10 20 0 + 3)
            (V2.currentTask (at_hms 10 19 59 + 999) [a]) = false
          <-> at_hms 10 20 0 + 3 < e + V2.MS_20_MIN)
      /\ (at_hms 10 20 0 + 3 <= at_hms 10 19 59 + 999 ->
          V2.finishDisabled (at_hms 10 20 0 + 3)
            (V2.currentTask (at_hms 10 19 59 + 999) [a]) = false))
  /\ V2.currentTask (at_hms 10 19 59 + 999) [a] = Some a
  /\ V2.finishDisabled (at_hms 10 20 0 + 3)
       (V2.currentTask (at_hms 10 19 59 + 999) [a]) = true.
Proof.
  cbv zeta. split; [|split; vm_compute; reflexivity].
  apply (X9_button_enabled_iff (at_hms 10 19 59 + 999) (at_hms 10 20 0 + 3)
           [Sample.v2_task "a" "A" "09:00" "10:00"]
           (Sample.v2_task "a" "A" "09:00" "10:00")).
  reflexivity.
Defined.

(** X10.  In the second variant the face of the finish button and the
    outcome a click records are computed from two readings of the clock:
    the face from the [new Date()] of the memo at the last render, the
    outcome from the [new Date()] of the click, which is not earlier.  For a
    click on the enabled button whose history write succeeds, the button
    has its red overtime face exactly when the render is at or after
    [endTime + 15 min], and the record says overtimed exactly when the click
    is after [endTime + 15 min].  So the face and the record agree except in
    two cases: the render is before [endTime + 15 min] and the click after
    it (the face is not the overtime one, the record says overtimed), or
    both are at the instant [endTime + 15 min] itself (the face is the
    overtime one, the record says on time). *)
Theorem X10_button_and_outcome (env0 env : V2.Env) (currentTime render : JS.Date)
    (c : V2.Task) (st : V2.State) (e : Z) :
  V2.currentTask currentTime (V2.tasks st) = Some c ->
  V2.timeStringToDate (V2.endTime c) = Some e ->
  V2.addDoc_ok env = true ->
  render <= V2.clock env ->
  render < e + V2.MS_20_MIN ->
  let red := String.eqb (V2.style (V2.finishButtonStatus render (Some c)))
                        "bg-red-500 hover:bg-red-600 shadow-xl" in
  exists r,
    V2.history (snd (V2.step env0 (V2.Acknowledge env) (currentTime, st)))
      = (V2.history st ++ [r])%list
    /\ V2.actualEnd r = V2.toLocaleTimeString (Some (V2.clock env))
    /\ (red = true <-> e + V2.MS_15_MIN <= render)
    /\ (V2.h_status r = V2.h_overtimed <-> e + V2.MS_15_MIN < V2.clock env)
    /\ ((red = true <-> V2.h_status r = V2.h_overtimed)
        <-> ~ (render < e + V2.MS_15_MIN < V2.clock env)
            /\ ~ (render = e + V2.MS_15_MIN /\ V2.clock env = e + V2.MS_15_MIN)).
Proof.
  intros Hc He Hok Hle Hlt red. subst red. cbn [V2.step snd].
  destruct (acknowledge_store env0 env currentTime st) as [_ ->]. rewrite Hc.
  rewrite (handleFinished_history _ _ _ Hok), (finishButtonStatus_style _ _ _ He), He.
  eexists. split; [reflexivity|]. cbn [V2.h_status V2.actualEnd JS.add JS.gt].
  split; [reflexivity|]. rewrite Z.gtb_ltb.
  replace (render <? e + V2.MS_20_MIN) with true by (symmetry; apply Z.ltb_lt; lia).
  assert (Hred : String.eqb
                   (if render <? e then "bg-indigo-600 hover:bg-indigo-700"
                    else if render <? e + V2.MS_15_MIN
                         then "bg-green-600 hover:bg-green-700 animate-pulse"
                         else "bg-red-500 hover:bg-red-600 shadow-xl")
                   "bg-red-500 hover:bg-red-600 shadow-xl" = true
                 <-> e + V2.MS_15_MIN <= render).
  { destruct (Z.ltb_spec render e) as [H1|H1].
    { split; [vm_compute; discriminate|unfold V2.MS_15_MIN; lia]. }
    destruct (Z.ltb_spec render (e + V2.MS_15_MIN)) as [H2|H2].
    { split; [vm_compute; discriminate|lia]. }
    split; [done|intros _; vm_compute; reflexivity]. }
  assert (Hst : (if e + V2.MS_15_MIN <? V2.clock env then V2.h_overtimed else V2.on_time)
                = V2.h_overtimed
                <-> e + V2.MS_15_MIN < V2.clock env).
  { destruct (Z.ltb_spec (e + V2.MS_15_MIN) (V2.clock env)) as [H1|H1].
    - split; done.
    - split; [discriminate|lia]. }
  split; [exact Hred|]. split; [exact Hst|].
  rewrite Hred, Hst. lia.
Qed.

Lemma X10_witness :
  let a := Sample.v2_task "a" "A" "09:00" "10:00" in
  let render := at_hms 10 14 59 + 500 in
  let env := Sample.v2_env (at_hms 10 15 0 + 200) in
  String.eqb (V2.style (V2.finishButtonStatus render (Some a)))
             "bg-red-500 hover:bg-red-600 shadow-xl" = false
  /\ exists r,
       V2.history (snd (V2.step env (V2.Acknowledge env)
                          (at_hms 10 14 59, Sample.v2_state [a]))) = [r]
       /\ V2.h_status r = V2.h_overtimed.
Proof.
  cbv zeta. split; [vm_compute; reflexivity|].
  destruct (X10_button_and_outcome (Sample.v2_env (at_hms 10 15 0 + 200))
              (Sample.v2_env (at_hms 10 15 0 + 200))
              (at_hms 10 14 59) (at_hms 10 14 59 + 500)
              (Sample.v2_task "a" "A" "09:00" "10:00")
              (Sample.v2_state [Sample.v2_task "a" "A" "09:00" "10:00"])
              (at_hms 10 0 0))
    as (r & Hh & _ & _ & Hst & _).
  - reflexivity.
  - reflexivity.
  - reflexivity.
  - vm_compute. discriminate.
  - vm_compute. reflexivity.
  - exists r. split; [exact Hh|]. apply Hst. vm_compute. reflexivity.
Defined.

(** ** The first variant's panel and finish handler *)

Lemma handleFinishTask_clears env taskId statusOverride st task :
  finds taskId st task ->
  V1.addDoc_ok env = true ->
  V1.showNotification (V1.handleFinishTask env taskId statusOverride st) = None
  /\ V1.localStorage (V1.handleFinishTask env taskId statusOverride st)
     = delete (V1.notifiedKey taskId) (V1.localStorage st)
  /\ V1.getItem_truthy
       (V1.localStorage (V1.handleFinishTask env taskId statusOverride st))
       (V1.notifiedKey taskId) = false.
Proof.
  intros Hf Hok. rewrite (handleFinishTask_found _ _ _ _ _ Hf), Hok. simpl.
  repeat split. unfold V1.getItem_truthy. by rewrite lookup_delete_eq.
Qed.

(** X11.  The panel of the first variant has two faces only.  Whatever the
    state and the instant, the block [activeSchedule] returns is either a
    running block, shown as [Currently Active] with the button
    [FINISH NOW], or a block past its end and carrying no status, shown as
    [Overdue Task] with the button [FINISH (OVERDUE: +undefined min)]: the
    face [Time to Finish!] of the 15 minute window is never shown. *)
Theorem X11_panel_faces (env : V1.Env) (now : JS.Date) (st : V1.State) (a : V1.Active) :
  fst (V1.activeSchedule env now st) = Some a ->
  (V1.isRunning (V1.minutesOfDate now) (V1.task a) = true
   /\ V1.panelHeading a = "Currently Active"
   /\ V1.finishButtonLabel a = "FINISH NOW")
  \/ (V1.inWindow (V1.minutesOfDate now) (V1.task a) = true
      /\ V1.status a = None
      /\ V1.panelHeading a = "Overdue Task"
      /\ V1.finishButtonLabel a = "FINISH (OVERDUE: +undefined min)").
Proof.
  rewrite activeSchedule_fst. unfold V1_attention.
  destruct (List.find (V1.isRunning _) _) as [r|] eqn:Hr.
  - intros [= <-]. left. apply find_some in Hr as [_ Hr]. by repeat split.
  - destruct (List.find (V1.inWindow _) _) as [s|] eqn:Hs; [|done].
    intros [= <-]. right. apply find_some in Hs as [_ Hs]. by repeat split.
Qed.

Lemma X11_witness :
  let a := Sample.v1_block "a" "A" "09:00" "10:00" in
  V1.panelHeading {| V1.task := a; V1.status := None |} = "Overdue Task"
  /\ V1.windowStatus (V1.minutesOfDate (at_hms 10 5 0)) a = V1.ON_TIME_WINDOW.
Proof.
  cbv zeta.
  destruct (X11_panel_faces (Sample.v1_env 0) (at_hms 10 5 0)
              (Sample.v1_state [Sample.v1_block "a" "A" "09:00" "10:00"])
              {| V1.task := Sample.v1_block "a" "A" "09:00" "10:00"; V1.status := None |})
    as [(Hrun & _)|(_ & _ & Hh & _)].
  - reflexivity.
  - vm_compute in Hrun. discriminate.
  - split; [exact Hh|reflexivity].
Defined.

(** X12.  [handleFinishTask] of the first variant does nothing at all when
    the application is not connected or not signed in, when the id is empty,
    or when no stored schedule has the id: the state is left as it was, with
    no record, no log line and no change to the popup or to the markers. *)
Theorem X12_finish_guard (env : V1.Env) (taskId : string)
    (statusOverride : option string) (st : V1.State) :
  V1.db st = false
  \/ from_option V1.truthy false (V1.userId st) = false
  \/ taskId = ""
  \/ Forall (fun s => V1.id s <> taskId) (V1.schedules st) ->
  V1.handleFinishTask env taskId statusOverride st = st.
Proof.
  intros H. unfold V1.handleFinishTask.
  destruct (negb (V1.db st) || _ || _) eqn:Hg; [done|].
  apply orb_false_elim in Hg as [Hg Ht]. apply orb_false_elim in Hg as [Hd Hu].
  apply negb_false_iff in Hd, Hu, Ht.
  destruct H as [H|[H|[H|H]]]; try congruence.
  - subst taskId. done.
  - destruct (List.find _ _) as [s|] eqn:Hs; [|done].
    apply find_some in Hs as [Hin Heq]. apply String.eqb_eq in Heq.
    by destruct (proj1 (List.Forall_forall _ _) H s Hin).
Qed.

Lemma X12_witness :
  let st := Sample.v1_state [Sample.v1_block "a" "A" "09:00" "10:00"] in
  V1.handleFinishTask (Sample.v1_env (at_hms 10 0 0)) "zz" None st = st.
Proof.
  apply X12_finish_guard. right. right. right.
  repeat constructor. discriminate.
Defined.

(** X13.  In the first variant the popup and the dedupe marker of a block
    are cleared by a finish exactly when the history write succeeds.  When
    it succeeds the popup is closed and the marker [notified-<id>] is
    deleted; when it fails both are left as they were, no record is added,
    and two errors are logged, the failed history write and the failed
    removal. *)
Theorem X13_finish_clears_marker (env : V1.Env) (taskId : string)
    (statusOverride : option string) (st : V1.State) (task : V1.Schedule) :
  finds taskId st task ->
  let st' := V1.handleFinishTask env taskId statusOverride st in
  (V1.addDoc_ok env = true ->
     V1.showNotification st' = None
     /\ V1.localStorage st' = delete (V1.notifiedKey taskId) (V1.localStorage st)
     /\ V1.getItem_truthy (V1.localStorage st') (V1.notifiedKey taskId) = false)
  /\ (V1.addDoc_ok env = false ->
     V1.showNotification st' = V1.showNotification st
     /\ V1.localStorage st' = V1.localStorage st
     /\ V1.history st' = V1.history st
     /\ V1.console st' =
          (V1.console st ++
             ["Error adding to history:";
              "Error deleting schedule: ReferenceError: deleteDoc is not defined"])%list).
Proof.
  intros Hf st'. subst st'. rewrite (handleFinishTask_found _ _ _ _ _ Hf).
  split; intros Hok; rewrite Hok; simpl.
  - repeat split. unfold V1.getItem_truthy. by rewrite lookup_delete_eq.
  - repeat split. by rewrite <- app_assoc.
Qed.

Lemma X13_witness :
  let a := Sample.v1_block "a" "A" "09:00" "10:00" in
  let st := snd (V1.activeSchedule (Sample.v1_env 0) (at_hms 10 0 0)
                   (Sample.v1_state [a])) in
  let st' := V1.handleFinishTask (Sample.v1_env (at_hms 10 0 20)) "a" None st in
  V1.getItem_truthy (V1.localStorage st) (V1.notifiedKey "a") = true
  /\ V1.getItem_truthy (V1.localStorage st') (V1.notifiedKey "a") = false.
Proof.
  cbv zeta. split; [vm_compute; reflexivity|].
  destruct (X13_finish_clears_marker (Sample.v1_env (at_hms 10 0 20)) "a" None
              (snd (V1.activeSchedule (Sample.v1_env 0) (at_hms 10 0 0)
                      (Sample.v1_state [Sample.v1_block "a" "A" "09:00" "10:00"])))
              (Sample.v1_block "a" "A" "09:00" "10:00"))
    as [Hok _].
  - repeat split; vm_compute; reflexivity.
  - destruct Hok as (_ & _ & H); [reflexivity|exact H].
Defined.

(** X14.  In the first variant a block finished during the minute it ends is
    reminded again.  The finish closes the popup and deletes the marker but
    cannot remove the block, so at the next evaluation in that minute, with
    no block running and the block first in its window, the reminder of the
    same block is raised once more. *)
Theorem X14_finish_then_reminder_again (env : V1.Env) (now : JS.Date)
    (st : V1.State) (task : V1.Schedule) :
  finds (V1.id task) st task ->
  V1.addDoc_ok env = true ->
  List.find (V1.isRunning (V1.minutesOfDate now)) (V1.schedules st) = None ->
  List.find (V1.inWindow (V1.minutesOfDate now)) (V1.schedules st) = Some task ->
  JS.seq (V1.minutesOfDate now) (V1.minutesOf (V1.endTime task)) = true ->
  V1_reminderFor (V1.minutesOfDate now)
    (V1.handleFinishTask env (V1.id task) None st) = [V1.id task].
Proof.
  intros Hf Hok Hrun Hwin Hseq. unfold V1_reminderFor.
  rewrite handleFinishTask_schedules, Hrun, Hwin.
  destruct (handleFinishTask_clears env (V1.id task) None st task Hf Hok)
    as (Hn & _ & Hm).
  unfold V1.reminderDue. by rewrite Hseq, Hn, Hm.
Qed.

Lemma X14_witness :
  let a := Sample.v1_block "a" "A" "09:00" "10:00" in
  let st := snd (V1.activeSchedule (Sample.v1_env 0) (at_hms 10 0 0)
                   (Sample.v1_state [a])) in
  V1.emitted st = ["a"]
  /\ V1_reminderFor (V1.minutesOfDate (at_hms 10 0 30))
       (V1.handleFinishTask (Sample.v1_env (at_hms 10 0 20)) "a" None st) = ["a"].
Proof.
  cbv zeta. split; [vm_compute; reflexivity|].
  apply (X14_finish_then_reminder_again (Sample.v1_env (at_hms 10 0 20)) (at_hms 10 0 30)
           (snd (V1.activeSchedule (Sample.v1_env 0) (at_hms 10 0 0)
                   (Sample.v1_state [Sample.v1_block "a" "A" "09:00" "10:00"])))
           (Sample.v1_block "a" "A" "09:00" "10:00")).
  - repeat split; vm_compute; reflexivity.
  - reflexivity.
  - vm_compute. reflexivity.
  - vm_compute. reflexivity.
  - vm_compute. reflexivity.
Defined.

(** ** Failed writes in the second variant *)

Section V2Writes.

Import V2.

Lemma handleFinished_failed_status env c st :
  setDoc_ok env = false ->
  tasks (handleFinished env (Some c) st) = tasks st.
Proof.
  intros Hf. unfold handleFinished, finishWrites, updateTaskStatus. rewrite Hf. simpl.
  by rewrite logActivityToHistory_tasks.
Qed.

End V2Writes.

(** X15.  In the second variant a finish whose status write fails leaves the
    block unfinished after its record is logged, so the same block can be
    finished again: an acknowledgement with a failed status write and a later
    one, at a tick where the block is still current, log two history records
    for the same block. *)
Theorem X15_failed_status_write_duplicates (env e1 e2 : V2.Env)
    (t1 t2 : JS.Date) (st : V2.State) (c : V2.Task) :
  V2.currentTask t1 (V2.tasks st) = Some c ->
  V2.currentTask t2 (V2.tasks st) = Some c ->
  V2.addDoc_ok e1 = true ->
  V2.setDoc_ok e1 = false ->
  V2.addDoc_ok e2 = true ->
  let st' := snd (V2.run env [V2.Acknowledge e1; V2.Tick t2; V2.Acknowledge e2]
                    (t1, st)) in
  exists r1 r2,
    V2.history st' = (V2.history st ++ [r1; r2])%list
    /\ V2.h_activity r1 = V2.activity c /\ V2.scheduledStart r1 = V2.startTime c
    /\ V2.h_activity r2 = V2.activity c /\ V2.scheduledStart r2 = V2.startTime c.
Proof.
  intros Hc1 Hc2 Hadd1 Hset1 Hadd2 st'. subst st'. unfold V2.run. simpl fold_left.
  cbn [V2.step snd].
  set (s1 := V2.acknowledge env e1 t1 st).
  set (s2 := V2.timingEffect env t2 s1).
  assert (Hs1 : V2.tasks s1 = V2.tasks st
                /\ V2.history s1 = V2.history (V2.handleFinished e1 (Some c) st)).
  { subst s1. destruct (acknowledge_store env e1 t1 st) as [-> ->]. rewrite Hc1.
    by rewrite (handleFinished_failed_status _ _ _ Hset1). }
  destruct Hs1 as [Ht1 Hh1].
  assert (Hs2 : V2.tasks s2 = V2.tasks st /\ V2.history s2 = V2.history s1).
  { subst s2. destruct (timingEffect_store env t2 s1) as [-> ->]. by rewrite Ht1. }
  destruct Hs2 as [Ht2 Hh2].
  destruct (acknowledge_store env e2 t2 s2) as [_ ->].
  rewrite Ht2, Hc2, (handleFinished_history _ _ _ Hadd2), Hh2, Hh1.
  rewrite (handleFinished_history _ _ _ Hadd1), <- app_assoc.
  by eexists _, _.
Qed.

Lemma X15_witness :
  let a := Sample.v2_task "a" "A" "09:00" "10:00" in
  let fail := {| V2.clock := at_hms 10 1 0; V2.today := "2025-01-01";
                 V2.newId := "1"; V2.addDoc_ok := true; V2.setDoc_ok := false |} in
  length (V2.history
            (snd (V2.run (Sample.v2_env 0)
                    [V2.Acknowledge fail; V2.Tick (at_hms 10 1 4);
                     V2.Acknowledge (Sample.v2_env (at_hms 10 1 5))]
                    (at_hms 10 1 0, Sample.v2_state [a])))) = 2%nat.
Proof.
  cbv zeta.
  destruct (X15_failed_status_write_duplicates (Sample.v2_env 0)
              {| V2.clock := at_hms 10 1 0; V2.today := "2025-01-01";
                 V2.newId := "1"; V2.addDoc_ok := true; V2.setDoc_ok := false |}
              (Sample.v2_env (at_hms 10 1 5)) (at_hms 10 1 0) (at_hms 10 1 4)
              (Sample.v2_state [Sample.v2_task "a" "A" "09:00" "10:00"])
              (Sample.v2_task "a" "A" "09:00" "10:00"))
    as (r1 & r2 & Hh & _).
  - reflexivity.
  - reflexivity.
  - reflexivity.
  - reflexivity.
  - reflexivity.
  - rewrite Hh. reflexivity.
Defined.

(** X16.  In the second variant the writes of a finish whose history write
    fails still finish the block: when the status write succeeds, the block
    is stored with status completed, no record is added and the failure is
    logged.  A click in the running program leaves the same history and the
    same tasks. *)
Theorem X16_failed_history_still_completes (env : V2.Env) (c : V2.Task) (st : V2.State) :
  V2.addDoc_ok env = false ->
  V2.setDoc_ok env = true ->
  In c (V2.tasks st) ->
  let st' := V2.handleFinished env (Some c) st in
  V2.history st' = V2.history st
  /\ In (V2.withStatus V2.completed c) (V2.tasks st')
  /\ V2.console st' = (V2.console st ++ ["Error logging history:"])%list
  /\ (forall env0 currentTime,
        V2.currentTask currentTime (V2.tasks st) = Some c ->
        let clicked := snd (V2.step env0 (V2.Acknowledge env) (currentTime, st)) in
        V2.history clicked = V2.history st
        /\ In (V2.withStatus V2.completed c) (V2.tasks clicked)).
Proof.
  intros Hadd Hset Hin st'. subst st'.
  assert (Hh : V2.history (V2.handleFinished env (Some c) st) = V2.history st).
  { unfold V2.handleFinished, V2.finishWrites. rewrite updateTaskStatus_history.
    unfold V2.logActivityToHistory. by rewrite Hadd. }
  split; [done|split; [by apply handleFinished_archives|split]].
  - unfold V2.handleFinished, V2.finishWrites, V2.updateTaskStatus, V2.logActivityToHistory.
    by rewrite Hadd, Hset.
  - intros env0 currentTime Hc. cbn [V2.step snd].
    destruct (acknowledge_store env0 env currentTime st) as [-> ->]. rewrite Hc.
    split; [done|by apply handleFinished_archives].
Qed.

Lemma X16_witness :
  let a := Sample.v2_task "a" "A" "09:00" "10:00" in
  let env := {| V2.clock := at_hms 10 1 0; V2.today := "2025-01-01";
                V2.newId := "1"; V2.addDoc_ok := false; V2.setDoc_ok := true |} in
  let st' := V2.handleFinished env (Some a) (Sample.v2_state [a]) in
  V2.history st' = [] /\ In (V2.withStatus V2.completed a) (V2.tasks st').
Proof.
  cbv zeta.
  destruct (X16_failed_history_still_completes
              {| V2.clock := at_hms 10 1 0; V2.today := "2025-01-01";
                 V2.newId := "1"; V2.addDoc_ok := false; V2.setDoc_ok := true |}
              (Sample.v2_task "a" "A" "09:00" "10:00")
              (Sample.v2_state [Sample.v2_task "a" "A" "09:00" "10:00"]))
    as (Hh & Hin & _).
  - reflexivity.
  - reflexivity.
  - left. reflexivity.
  - split; [exact Hh|exact Hin].
Defined.

(** ** The next task and the form *)

Section V2Next.

Import V2.

Lemma findIndex_first taskId l1 c rest :
  Forall (fun t => id t <> taskId) l1 ->
  id c = taskId ->
  findIndex taskId (l1 ++ c :: rest) = Some (length l1).
Proof.
  intros Hl1 Hc. induction Hl1 as [|t l1 Ht _ IH]; simpl.
  - by rewrite (proj2 (String.eqb_eq _ _) Hc).
  - by rewrite (proj2 (String.eqb_neq _ _) Ht), IH.
Qed.

End V2Next.

(** X17.  [nextTask] of the second variant is the task that follows the
    current one in the stored list, whatever its status and its times, and
    there is none when the current task is the last of the list.  This holds
    when no earlier task of the list has the id of the current one. *)
Theorem X17_nextTask_is_successor (l1 rest : list V2.Task) (c : V2.Task) :
  Forall (fun t => V2.id t <> V2.id c) l1 ->
  V2.nextTask (Some c) (l1 ++ c :: rest) = hd_error rest.
Proof.
  intros Hl1. unfold V2.nextTask.
  rewrite (findIndex_first (V2.id c) l1 c rest Hl1 eq_refl).
  replace (S (length l1)) with (length (l1 ++ [c]) + 0)%nat
    by (rewrite length_app; simpl; lia).
  replace (l1 ++ c :: rest)%list with ((l1 ++ [c]) ++ rest)%list
    by (by rewrite <- app_assoc).
  rewrite nth_error_app2 by lia.
  replace (length (l1 ++ [c]) + 0 - length (l1 ++ [c]))%nat with 0%nat by lia.
  by destruct rest.
Qed.

Lemma X17_witness :
  let a := Sample.v2_task "a" "A" "09:00" "10:00" in
  let b := V2.withStatus V2.completed (Sample.v2_task "b" "B" "09:30" "09:45") in
  V2.nextTask (Some a) [a; b] = Some b
  /\ V2.nextTask (Some b) [a; b] = None.
Proof.
  cbv zeta. split.
  - apply (X17_nextTask_is_successor []
             [V2.withStatus V2.completed (Sample.v2_task "b" "B" "09:30" "09:45")]
             (Sample.v2_task "a" "A" "09:00" "10:00")).
    constructor.
  - apply (X17_nextTask_is_successor [Sample.v2_task "a" "A" "09:00" "10:00"] []
             (V2.withStatus V2.completed (Sample.v2_task "b" "B" "09:30" "09:45"))).
    repeat constructor. discriminate.
Defined.

(** X18.  The form of the second variant shows an error exactly when it
    stores nothing.  Whatever is submitted, either the error is empty and the
    stored list has gained one task, the submitted one with status pending,
    or the error is one of the three messages of the form and the stored
    list is as it was.  The history and the reminder state are never
    touched. *)
Theorem X18_submit_outcomes (env : V2.Env) (activity_ s e : string) (st : V2.State) :
  let st' := V2.handleSubmit env activity_ s e st in
  V2.history st' = V2.history st
  /\ V2.notificationState st' = V2.notificationState st
  /\ ((V2.formError st' = ""
       /\ In {| V2.id := V2.newId env; V2.activity := activity_;
                V2.startTime := s; V2.endTime := e; V2.status := V2.pending |}
             (V2.tasks st')
       /\ length (V2.tasks st') = S (length (V2.tasks st)))
      \/ (In (V2.formError st')
             ["Please fill in all fields."; "End time must be after start time.";
              "Failed to save schedule. Try again."]
          /\ V2.tasks st' = V2.tasks st)).
Proof.
  cbv zeta. unfold V2.handleSubmit.
  destruct (_ || _ || _).
  { split; [done|]. split; [done|]. right. split; [by left|done]. }
  destruct (JS.le _ _).
  { split; [done|]. split; [done|]. right. split; [by right; left|done]. }
  destruct (V2.setDoc_ok env).
  - split; [done|]. split; [done|]. left. split; [done|].
    unfold V2.deliver. simpl V2.tasks. split.
    + apply sort_by_In, sort_by_In, in_or_app. right. by left.
    + rewrite !sort_by_length, length_app. simpl. lia.
  - split; [done|]. split; [done|]. right. split; [by right; right; left|done].
Qed.

(** ** Onboarding *)

Section Onboarding.

Import V2App.

Lemma truthy_ne (s : string) : truthy s = true -> s <> "".
Proof. unfold truthy. intros H ->. done. Qed.

Lemma content_setup st : content st = ProfileSetupScreen -> view st = setup.
Proof.
  unfold content.
  destruct (view st), (isAuthReady st), (profileState st); done.
Qed.

Lemma profileListener_inv st : V2App.inv st -> V2App.inv (profileListener st).
Proof.
  intros (Hv & Hs & Hp). unfold profileListener.
  destruct (storedProfile st) as [p|] eqn:Hst.
  - destruct (listenerView st); (split; [|split]); simpl;
      try done; try (intros q [= <-]; by apply Hs); try (intros q Hq; apply Hs; congruence).
  - destruct (listenerView st); (split; [|split]); simpl; try done;
      try (intros q Hq; apply Hs; congruence).
Qed.

Lemma step_inv ev st : V2App.inv st -> V2App.inv (step ev st).
Proof.
  intros Hinv. pose proof Hinv as (Hv & Hs & Hp). unfold step.
  destruct ev as [outcome| |ok form|].
  - destruct (content st); try done. destruct (permissionStatus st); try done.
  - destruct (content st); try done.
    destruct (permissionStatus st); try done;
      (split; [|split]); simpl; try done; intros _; [by left|by right].
  - destruct (content st) eqn:Hc; try (by destruct (permissionStatus st)).
    apply content_setup in Hc.
    assert (Hgoal : V2App.inv (handleSubmit ok form st)).
    { unfold handleSubmit.
      destruct (truthy (f_name form)) eqn:H1; [|done].
      destruct (truthy (f_birthday form)) eqn:H2; [|done].
      destruct (truthy (f_nickname form)) eqn:H3; [|done].
      simpl. unfold handleProfileComplete.
      destruct (db st); [|done]. destruct (userId st) as [uid|]; [|done].
      destruct (truthy uid); [|done]. destruct ok; [|done].
      apply profileListener_inv. split; [|split]; simpl; try done.
      intros p [= <-]. unfold complete. simpl.
      repeat split; try by apply truthy_ne. by apply Hv. }
    by destruct (permissionStatus st).
  - assert (Hgoal := profileListener_inv st Hinv).
    by destruct (content st), (permissionStatus st).
Qed.

Lemma run_inv evs st : V2App.inv st -> V2App.inv (run evs st).
Proof.
  revert st. unfold run. induction evs as [|ev rest IH]; intros st H; simpl; [done|].
  apply IH. by apply step_inv.
Qed.

Lemma signedIn_inv uid : V2App.inv (signedIn uid).
Proof. split; [|split]; simpl; done. Qed.

Lemma content_main st p : content st = MainSchedulerScreen p -> profileState st = Some p.
Proof.
  unfold content.
  destruct (view st), (isAuthReady st), (profileState st); try done.
  by intros [= ->].
Qed.

(** From sign-in, whatever the user and the store do, a profile that is
    stored or shown is complete. *)
Lemma reachable_complete uid evs p :
  storedProfile (run evs (signedIn uid)) = Some p
  \/ content (run evs (signedIn uid)) = MainSchedulerScreen p ->
  complete p.
Proof.
  destruct (run_inv evs (signedIn uid) (signedIn_inv uid)) as (_ & Hs & Hp).
  intros [H|H]; [by apply Hs|]. by apply Hp, content_main.
Qed.

End Onboarding.

(** X19.  Onboarding of the second variant stores what the browser answered.
    From sign-in, the first snapshot finds no profile and shows the
    permission screen; after the request, the continue link and a filled
    profile form whose write succeeds, the stored profile holds the fields
    of the form and the user id, its [notificationPermission] is [granted]
    when [Notification.requestPermission()] resolved to [granted] and
    [denied] in every other case, also when the request threw; the snapshot
    of that write puts the same profile in the [profile] state of [App] and
    sets its [view] to [main]. *)
Theorem X19_onboarding_stores_permission (uid : string) (outcome : option string)
    (form : V2App.ProfileForm) :
  V2App.truthy uid = true ->
  V2App.truthy (V2App.f_name form) = true ->
  V2App.truthy (V2App.f_birthday form) = true ->
  V2App.truthy (V2App.f_nickname form) = true ->
  let st := V2App.run [V2App.ProfileSnapshot; V2App.RequestPermissions outcome;
                       V2App.Continue; V2App.SubmitProfile true form]
              (V2App.signedIn uid) in
  let p := {| V2App.name := V2App.f_name form;
              V2App.birthday := V2App.f_birthday form;
              V2App.nickname := V2App.f_nickname form;
              V2App.p_userId := uid;
              V2App.notificationPermission :=
                Some (if bool_decide (outcome = Some "granted")
                      then "granted" else "denied") |} in
  V2App.storedProfile st = Some p
  /\ V2App.profileState st = Some p
  /\ V2App.view st = V2App.main.
Proof.
  intros Hu Hn Hb Hk. cbv zeta.
  set (st1 := V2App.set_view V2App.permissions (V2App.signedIn uid)).
  set (g := bool_decide (outcome = Some "granted")).
  assert (Hrun : V2App.run [V2App.ProfileSnapshot; V2App.RequestPermissions outcome;
                            V2App.Continue; V2App.SubmitProfile true form]
                   (V2App.signedIn uid)
                 = V2App.step (V2App.SubmitProfile true form)
                     (V2App.step V2App.Continue (V2App.requestPermissions outcome st1)))
    by reflexivity.
  assert (Hstatus : V2App.permissionStatus (V2App.requestPermissions outcome st1)
                    = if g then V2App.ps_granted else V2App.ps_denied).
  { subst g. simpl. destruct outcome as [perm|]; [|done].
    destruct (String.eqb_spec perm "granted") as [->|Hne]; [done|].
    rewrite bool_decide_eq_false_2; [done|congruence]. }
  assert (Hcont : V2App.step V2App.Continue (V2App.requestPermissions outcome st1)
                  = V2App.handlePermissionComplete g
                      (V2App.requestPermissions outcome st1)).
  { unfold V2App.step.
    change (V2App.content (V2App.requestPermissions outcome st1))
      with V2App.PermissionRequestScreen.
    rewrite Hstatus. by destruct g. }
  rewrite Hrun, Hcont. unfold V2App.step.
  change (V2App.content (V2App.handlePermissionComplete g
            (V2App.requestPermissions outcome st1)))
    with V2App.ProfileSetupScreen.
  unfold V2App.handleSubmit. rewrite Hn, Hb, Hk. simpl.
  unfold V2App.handleProfileComplete. simpl. by rewrite Hu.
Qed.

Lemma X19_witness :
  let form := {| V2App.f_name := "Ada"; V2App.f_birthday := "1990-01-01";
                 V2App.f_nickname := "ada" |} in
  V2App.notificationPermission
    <$> V2App.storedProfile
          (V2App.run [V2App.ProfileSnapshot; V2App.RequestPermissions None;
                      V2App.Continue; V2App.SubmitProfile true form]
             (V2App.signedIn "u1"))
  = Some (Some "denied").
Proof.
  cbv zeta.
  destruct (X19_onboarding_stores_permission "u1" None
              {| V2App.f_name := "Ada"; V2App.f_birthday := "1990-01-01";
                 V2App.f_nickname := "ada" |}) as (H & _ & _).
  - reflexivity.
  - reflexivity.
  - reflexivity.
  - reflexivity.
  - rewrite H. reflexivity.
Defined.

(** X20.  The second variant never stores or shows an incomplete profile.
    From sign-in, after any sequence of permission requests, continue
    clicks, profile submissions (filled or not, saved or not) and profile
    snapshots, a profile that is stored, or that the main scheduler is shown
    with, has its name, birthday and nickname filled and a
    [notificationPermission] that is [granted] or [denied]. *)
Theorem X20_profile_always_complete (uid : string) (evs : list V2App.Event)
    (p : V2App.Profile) :
  V2App.storedProfile (V2App.run evs (V2App.signedIn uid)) = Some p
  \/ V2App.content (V2App.run evs (V2App.signedIn uid)) = V2App.MainSchedulerScreen p ->
  V2App.complete p.
Proof. apply reachable_complete. Qed.

Lemma X20_witness :
  V2App.complete
    {| V2App.name := "Ada"; V2App.birthday := "1990-01-01"; V2App.nickname := "ada";
       V2App.p_userId := "u1"; V2App.notificationPermission := Some "granted" |}.
Proof.
  apply (X20_profile_always_complete "u1"
           [V2App.ProfileSnapshot;
            V2App.SubmitProfile true
              {| V2App.f_name := ""; V2App.f_birthday := ""; V2App.f_nickname := "" |};
            V2App.RequestPermissions (Some "granted"); V2App.Continue;
            V2App.SubmitProfile true
              {| V2App.f_name := "Ada"; V2App.f_birthday := "1990-01-01";
                 V2App.f_nickname := "ada" |}]).
  left. reflexivity.
Defined.

(** ** Reminders and finished blocks *)

Section V2Finished.

Import V2.

Lemma handleFinished_emitted env current st :
  emitted (handleFinished env current st) = emitted st.
Proof.
  unfold handleFinished, finishWrites. destruct current as [c|]; [|done].
  unfold updateTaskStatus, logActivityToHistory.
  by destruct (setDoc_ok env), (addDoc_ok env).
Qed.

Lemma finishWrites_keeps_terminal env current st i :
  Forall (fun t => id t = i -> terminal t = true) (tasks st) ->
  Forall (fun t => id t = i -> terminal t = true) (tasks (finishWrites env current st)).
Proof.
  intros H. unfold finishWrites. destruct current as [c|]; [|done].
  unfold updateTaskStatus. destruct (setDoc_ok env).
  - unfold deliver. simpl tasks. rewrite logActivityToHistory_tasks.
    apply List.Forall_forall. intros t Ht.
    apply sort_by_In, in_map_iff in Ht as (t0 & <- & Ht0).
    pose proof (proj1 (List.Forall_forall _ _) H t0 Ht0) as H0.
    by destruct (String.eqb (id t0) (id c)).
  - simpl. by rewrite logActivityToHistory_tasks.
Qed.

Lemma handleFinished_keeps_terminal env current st i :
  Forall (fun t => id t = i -> terminal t = true) (tasks st) ->
  Forall (fun t => id t = i -> terminal t = true) (tasks (handleFinished env current st)).
Proof. intros H. by apply finishWrites_keeps_terminal. Qed.

Lemma timingEffect_finished env currentTime st i :
  Forall (fun t => id t = i -> terminal t = true) (tasks st) ->
  count_occ string_dec (emitted (timingEffect env currentTime st)) i
  = count_occ string_dec (emitted st) i.
Proof.
  intros H. rewrite timingEffect_emitted, count_occ_app.
  unfold V2_reminderFor.
  destruct (currentTask currentTime (tasks st)) as [c|] eqn:Hc; [|simpl; lia].
  destruct (_ && _ && _); [|simpl; lia].
  simpl. destruct (string_dec (id c) i) as [Hid|]; [|lia].
  pose proof (currentTask_In _ _ _ Hc) as Hin.
  pose proof (currentTask_isCurrent _ _ _ Hc) as Hcur.
  pose proof (proj1 (List.Forall_forall _ _) H c Hin Hid) as Hterm.
  unfold isCurrent in Hcur. rewrite Hterm in Hcur.
  by rewrite andb_false_r in Hcur.
Qed.

(** A click raises no reminder for a finished block, neither in the render
    that follows the closing of the popup nor in the one that follows the
    status write. *)
Lemma acknowledge_finished env e currentTime st i :
  Forall (fun t => id t = i -> terminal t = true) (tasks st) ->
  Forall (fun t => id t = i -> terminal t = true) (tasks (acknowledge env e currentTime st))
  /\ count_occ string_dec (emitted (acknowledge env e currentTime st)) i
     = count_occ string_dec (emitted st) i.
Proof.
  intros H. split.
  { destruct (acknowledge_store env e currentTime st) as [-> _].
    by apply handleFinished_keeps_terminal. }
  unfold acknowledge.
  set (current := currentTask currentTime (tasks st)).
  set (closed := set_notification idle st).
  set (rendered := if isActive (notificationState st)
                   then timingEffect env currentTime closed else closed).
  assert (Hr : Forall (fun t => id t = i -> terminal t = true) (tasks rendered)
               /\ count_occ string_dec (emitted rendered) i
                  = count_occ string_dec (emitted st) i).
  { subst rendered. destruct (isActive (notificationState st)); [|done]. split.
    - by destruct (timingEffect_store env currentTime closed) as [-> _].
    - by rewrite timingEffect_finished. }
  destruct Hr as [Hrt Hre].
  pose proof (finishWrites_keeps_terminal e current rendered i Hrt) as Hw.
  destruct (finishWrites_popup e current rendered) as [_ Hwe].
  destruct current as [c|]; [|by rewrite Hwe].
  destruct (setDoc_ok e); [|by rewrite Hwe].
  by rewrite timingEffect_finished, Hwe.
Qed.

Lemma run_finished env evs currentTime st i :
  Forall (fun t => id t = i -> terminal t = true) (tasks st) ->
  count_occ string_dec (emitted (snd (run env evs (currentTime, st)))) i
  = count_occ string_dec (emitted st) i.
Proof.
  revert currentTime st. unfold run.
  induction evs as [|ev rest IH]; intros currentTime st H; cbn [fold_left]; [done|].
  destruct ev as [now|e|now]; cbn [step].
  - rewrite IH.
    + by apply timingEffect_finished.
    + by destruct (timingEffect_store env now st) as [-> _].
  - destruct (acknowledge_finished env e currentTime st i H) as [Ht He].
    by rewrite IH.
  - rewrite IH.
    + by rewrite timingEffect_finished.
    + by destruct (timingEffect_store env now (set_notification idle st)) as [-> _].
Qed.

End V2Finished.

(** X21.  The second variant never reminds about a finished block.  When
    every stored task with a given id has a terminal status, no run of
    ticks, acknowledgements and restarts raises a reminder for that id: the
    status written by the finish is what keeps the reminder from coming
    back, also after a restart.  (The reminder a finish itself can raise
    again comes before its status write.) *)
Theorem X21_finished_never_reminded (env : V2.Env) (evs : list V2.Event)
    (currentTime : JS.Date) (st : V2.State) (i : string) :
  Forall (fun t => V2.id t = i -> V2.terminal t = true) (V2.tasks st) ->
  count_occ string_dec (V2.emitted (snd (V2.run env evs (currentTime, st)))) i
  = count_occ string_dec (V2.emitted st) i.
Proof. apply run_finished. Qed.

Lemma X21_witness :
  let a := V2.withStatus V2.completed (Sample.v2_task "a" "A" "09:00" "10:00") in
  count_occ string_dec
    (V2.emitted (snd (V2.run (Sample.v2_env 0)
                        [V2.Tick (at_hms 10 0 0);
                         V2.Acknowledge (Sample.v2_env (at_hms 10 0 0));
                         V2.Restart (at_hms 10 0 1); V2.Tick (at_hms 10 5 0)]
                        (at_hms 9 59 59, Sample.v2_state [a])))) "a"
  = 0%nat.
Proof.
  cbv zeta.
  rewrite (X21_finished_never_reminded (Sample.v2_env 0)
             [V2.Tick (at_hms 10 0 0);
              V2.Acknowledge (Sample.v2_env (at_hms 10 0 0));
              V2.Restart (at_hms 10 0 1); V2.Tick (at_hms 10 5 0)]
             (at_hms 9 59 59)
             (Sample.v2_state
                [V2.withStatus V2.completed (Sample.v2_task "a" "A" "09:00" "10:00")])
             "a").
  - reflexivity.
  - repeat constructor.
Defined.
